(** * Telemetry event pipeline of the Stripe CLI

    A shallow embedding of [pkg/stripe/analytics_telemetry.go]: the
    process-wide [CLIAnalyticsEventContext] singleton, the two setters
    [SetCommandContext] and [SetInvocationID], and [SendEvent].

    Go code that mutates through pointers and talks to the outside world
    is written in a small state-and-panic monad [Go] over a [World] that
    holds the heap, the two package-level variables, the process
    environment, the random source, the wall clock and the trace of
    observable effects. *)

From Stdlib Require Import ZArith String Ascii List Lia DecimalString.
From Stdlib Require DecimalPos DecimalZ.
From stdpp Require Import base option list gmap strings sorting.

Local Open Scope string_scope.
Local Open Scope Z_scope.

(** ** Bytes and strings as Go has them *)

(** A Go [string] is a sequence of bytes; so is a Rocq [string].  A single
    [byte] used in arithmetic is a [Z] in [0, 256). *)
Definition byte_of_ascii (c : ascii) : Z := Z.of_N (N_of_ascii c).
Definition ascii_of_byte (b : Z) : ascii := ascii_of_N (Z.to_N b).

Definition is_byte (b : Z) : Prop := 0 <= b < 256.

(** [s[i]] for a string constant indexed inside its bounds. *)
Definition index_string (s : string) (i : Z) : ascii :=
  default "000"%char (String.get (Z.to_nat i) s).

(** [strings.Join(elems, sep)]. *)
Fixpoint strings_Join (elems : list string) (sep : string) : string :=
  match elems with
  | [] => ""
  | [x] => x
  | x :: rest => x +:+ sep +:+ strings_Join rest sep
  end.

(** ** encoding/hex *)
Module hex.

Definition hextable : string := "0123456789abcdef".

(** [hex.Encode]: two lower-case digits per source byte,
    [hextable[v>>4]] then [hextable[v&0x0f]]. *)
Fixpoint Encode (src : list Z) : string :=
  match src with
  | [] => ""
  | v :: rest =>
      String (index_string hextable (Z.shiftr v 4))
        (String (index_string hextable (Z.land v 0x0f)) (Encode rest))
  end.

(** [fromHexChar]: the value of a lower-case digit. *)
Definition fromHexChar (c : ascii) : Z :=
  let n := byte_of_ascii c in
  if (48 <=? n) && (n <=? 57) then n - 48
  else if (97 <=? n) && (n <=? 102) then n - 97 + 10
  else 0.

End hex.

(** ** github.com/google/uuid *)
Module uuid.

(** [type UUID [16]byte]. *)
Definition UUID := list Z.

(** [NewRandomFromReader] after the sixteen bytes have been read:
    [uuid[6] = (uuid[6] & 0x0f) | 0x40] sets version 4 and
    [uuid[8] = (uuid[8] & 0x3f) | 0x80] sets the RFC 4122 variant. *)
Definition stamp (raw : list Z) : UUID :=
  alter (fun b => Z.lor (Z.land b 0x3f) 0x80) 8%nat
    (alter (fun b => Z.lor (Z.land b 0x0f) 0x40) 6%nat raw).

(** [UUID.String]: the form xxxxxxxx-xxxx-xxxx-xxxx-xxxxxxxxxxxx. *)
Definition String (u : UUID) : string :=
  hex.Encode (take 4 u) +:+ "-" +:+
  hex.Encode (take 2 (drop 4 u)) +:+ "-" +:+
  hex.Encode (take 2 (drop 6 u)) +:+ "-" +:+
  hex.Encode (take 2 (drop 8 u)) +:+ "-" +:+
  hex.Encode (drop 10 u).

(** What a caller can check of a printed version-4 identifier: 36
    characters, hyphens at 8, 13, 18 and 23, lower-case hexadecimal digits
    elsewhere, the version digit [4] at 14 and a variant digit among
    [8 9 a b] at 19. *)
Definition is_hex_digit (c : ascii) : bool :=
  let n := byte_of_ascii c in
  ((48 <=? n) && (n <=? 57)) || ((97 <=? n) && (n <=? 102)).

Fixpoint shape_from (i : nat) (s : string) : bool :=
  match s with
  | EmptyString => true
  | String.String c s' =>
      (if decide (i = 8 ∨ i = 13 ∨ i = 18 ∨ i = 23)%nat
       then Ascii.eqb c "-"
       else is_hex_digit c) && shape_from (S i) s'
  end.

Definition is_v4_string (s : string) : bool :=
  (String.length s =? 36)%nat
  && shape_from 0 s
  && bool_decide (String.get 14 s = Some "4"%char)
  && bool_decide (String.get 19 s ∈ [Some "8"; Some "9"; Some "a"; Some "b"]%char).

End uuid.

(** ** net/url *)
Module url.

Definition upperhex : string := "0123456789ABCDEF".

(** [shouldEscape(c, encodeQueryComponent)]: letters, digits and
    [- _ . ~] pass; every other byte is escaped. *)
Definition shouldEscape (c : ascii) : bool :=
  let n := byte_of_ascii c in
  if ((97 <=? n) && (n <=? 122)) || ((65 <=? n) && (n <=? 90))
     || ((48 <=? n) && (n <=? 57)) then false
  else if bool_decide (c ∈ ["-"; "_"; "."; "~"]%char) then false
  else true.

(** [url.QueryEscape]: a space becomes [+], an escaped byte becomes
    [%XX] in upper-case hexadecimal. *)
Fixpoint QueryEscape (s : string) : string :=
  match s with
  | EmptyString => ""
  | String.String c s' =>
      if shouldEscape c then
        if Ascii.eqb c " " then String.String "+" (QueryEscape s')
        else
          let n := byte_of_ascii c in
          String.String "%"
            (String.String (index_string upperhex (Z.shiftr n 4))
               (String.String (index_string upperhex (Z.land n 15))
                  (QueryEscape s')))
      else String.String c (QueryEscape s')
  end.

(** [type Values map[string][]string]. *)
Abbreviation Values := (gmap string (list string)).

(** [Values.Set]: replace whatever the key held by the one value. *)
Definition Set_ (v : Values) (key value : string) : Values :=
  <[key := [value]]> v.

(** [Values.Add]: append to what the key holds. *)
Definition Add (v : Values) (key value : string) : Values :=
  <[key := (default [] (v !! key) ++ [value])%list]> v.

(** [Values.Get]: the first value of the key, or the empty string. *)
Definition Get (v : Values) (key : string) : string :=
  match v !! key with
  | Some (x :: _) => x
  | _ => ""
  end.

Definition string_le (a b : string) : Prop := String.leb a b = true.

#[global] Instance string_le_dec (a b : string) : Decision (string_le a b).
Proof. unfold string_le. apply _. Defined.

(** The keys in the order [slices.Sort] leaves them. *)
Definition sorted_keys (v : Values) : list string :=
  merge_sort string_le (elements (dom v)).

(** The [key=value] pieces [Values.Encode] writes, in order. *)
Definition pairs (v : Values) : list string :=
  flat_map
    (fun k =>
       let keyEscaped := QueryEscape k in
       map (fun x => keyEscaped +:+ "=" +:+ QueryEscape x)
           (default [] (v !! k)))
    (sorted_keys v).

(** [Values.Encode]: the pieces joined by [&], keys sorted. *)
Definition Encode (v : Values) : string := strings_Join (pairs v) "&".

End url.

(** ** context, errors, time, fmt *)
Module context.

(** A [context.Context] value.  The interface value [nil] is [None] at
    type [option Context]. *)
Inductive Context :=
| Background
| WithCancel (parent : Context) (canceled : bool).

End context.

(** A non-nil Go [error]: one known by its message, or the [*url.Error]
    in which [http.Client] wraps what went wrong with a request. *)
Inductive error :=
| errors_New (msg : string)
| url_Error (Op URL : string) (Err : error).

(** [err.Error()]. *)
Fixpoint Error (e : error) : string :=
  match e with
  | errors_New msg => msg
  | url_Error op url err =>
      op +:+ " " +:+ String "034" (url +:+ String "034" (": " +:+ Error err))
  end.

Module time.

(** [time.Duration] counts nanoseconds. *)
Definition Nanosecond : Z := 1.
Definition Second : Z := 1000000000 * Nanosecond.

End time.

(** [fmt.Sprint] of an [int64]: its decimal numeral. *)
Definition fmt_Sprint (n : Z) : string := NilZero.string_of_int (Z.to_int n).

(** ** net/http *)
Module http.

Definition MethodPost : string := "POST".

(** [type Header map[string][]string], keys in canonical form. *)
Abbreviation Header := (gmap string (list string)).

Definition is_lower (c : ascii) : bool :=
  let n := byte_of_ascii c in (97 <=? n) && (n <=? 122).
Definition is_upper (c : ascii) : bool :=
  let n := byte_of_ascii c in (65 <=? n) && (n <=? 90).
Definition is_digit (c : ascii) : bool :=
  let n := byte_of_ascii c in (48 <=? n) && (n <=? 57).

(** [validHeaderFieldByte]: the token characters of RFC 7230. *)
Definition validHeaderFieldByte (c : ascii) : bool :=
  is_lower c || is_upper c || is_digit c
  || bool_decide (c ∈ ["!"; "#"; "$"; "%"; "&"; "'"; "*"; "+"; "-"; ".";
                       "^"; "_"; "`"; "|"; "~"]%char).

Fixpoint all_valid (s : string) : bool :=
  match s with
  | EmptyString => true
  | String c s' => validHeaderFieldByte c && all_valid s'
  end.

(** The loop of [canonicalMIMEHeaderKey]: a letter that starts the key
    or follows a hyphen is upper-cased, every other letter lower-cased. *)
Fixpoint canon (upper : bool) (s : string) : string :=
  match s with
  | EmptyString => ""
  | String c s' =>
      let c' :=
        if upper && is_lower c then ascii_of_byte (byte_of_ascii c - 32)
        else if negb upper && is_upper c then ascii_of_byte (byte_of_ascii c + 32)
        else c in
      String c' (canon (Ascii.eqb c' "-") s')
  end.

(** [textproto.CanonicalMIMEHeaderKey]: a key holding a byte that is no
    token character is returned unchanged. *)
Definition CanonicalMIMEHeaderKey (s : string) : string :=
  if all_valid s then canon true s else s.

(** [Header.Set] and [Header.Get]. *)
Definition Header_Set (h : Header) (key value : string) : Header :=
  <[CanonicalMIMEHeaderKey key := [value]]> h.

Definition Header_Get (h : Header) (key : string) : string :=
  match h !! CanonicalMIMEHeaderKey key with
  | Some (x :: _) => x
  | _ => ""
  end.

(** The parts of [http.Request] this package touches.  [URL] holds the
    string the request was built from. *)
Record Request := {
  Method : string;
  URL : string;
  Hdr : Header;
  Body : string;
  ctx : context.Context
}.

Definition set_Hdr (h : Header) (r : Request) : Request :=
  {| Method := Method r; URL := URL r; Hdr := h; Body := Body r; ctx := ctx r |}.

Definition set_ctx (c : context.Context) (r : Request) : Request :=
  {| Method := Method r; URL := URL r; Hdr := Hdr r; Body := Body r; ctx := c |}.

(** [http.Response]: status, headers, body. *)
Record Response := {
  StatusCode : Z;
  RespHdr : Header;
  RespBody : string
}.

(** [http.Transport] with the three settings the package gives it. *)
Record Transport := {
  ProxyFromEnvironment : bool;
  DialTimeout : Z;
  DialKeepAlive : Z;
  TLSHandshakeTimeout : Z
}.

End http.

(** ** net/url, the parsed form *)

(** A parsed [*url.URL], known by what [URL.String] prints. *)
Record url_URL := { url_String : string }.

(** ** github.com/spf13/cobra *)
Module cobra.

(** The three fields of [cobra.Command] read here: the usage line, the
    annotation map and the parent command. *)
#[warnings="-register-all"] Inductive Command :=
| mkCommand (Use : string) (Annotations : gmap string string)
            (parent : option Command).

Definition Use (c : Command) : string :=
  match c with mkCommand u _ _ => u end.
Definition Annotations (c : Command) : gmap string string :=
  match c with mkCommand _ a _ => a end.
Definition Parent (c : Command) : option Command :=
  match c with mkCommand _ _ p => p end.

(** [name[:strings.Index(name, " ")]], the whole string when it has no
    space. *)
Fixpoint first_word (s : string) : string :=
  match s with
  | EmptyString => ""
  | String c s' => if Ascii.eqb c " " then "" else String c (first_word s')
  end.

(** [Command.Name]: the first word of the usage line. *)
Definition Name (c : Command) : string := first_word (Use c).

(** [Command.CommandPath]: the parent's path, a space, the name; the
    name alone at the root. *)
Fixpoint CommandPath (c : Command) : string :=
  match c with
  | mkCommand u _ (Some p) => CommandPath p +:+ " " +:+ first_word u
  | mkCommand u _ None => first_word u
  end.

End cobra.

(** ** The telemetry record *)

(** [CLIAnalyticsEventContext], field for field. *)
Record CLIAnalyticsEventContext := {
  UserAgent : string;
  InvocationID : string;
  CommandPath : string;
  Merchant : string;
  CLIVersion : string;
  OS : string;
  GeneratedResource : bool;
  RequestID : string;
  LiveMode : bool
}.

(** [CLIAnalyticsEventContext{}], every field at its zero value. *)
Definition zero_context : CLIAnalyticsEventContext :=
  {| UserAgent := ""; InvocationID := ""; CommandPath := ""; Merchant := "";
     CLIVersion := ""; OS := ""; GeneratedResource := false; RequestID := "";
     LiveMode := false |}.

Definition set_InvocationID (v : string) (c : CLIAnalyticsEventContext) :=
  {| UserAgent := UserAgent c; InvocationID := v; CommandPath := CommandPath c;
     Merchant := Merchant c; CLIVersion := CLIVersion c; OS := OS c;
     GeneratedResource := GeneratedResource c; RequestID := RequestID c;
     LiveMode := LiveMode c |}.

Definition set_CommandPath (v : string) (c : CLIAnalyticsEventContext) :=
  {| UserAgent := UserAgent c; InvocationID := InvocationID c; CommandPath := v;
     Merchant := Merchant c; CLIVersion := CLIVersion c; OS := OS c;
     GeneratedResource := GeneratedResource c; RequestID := RequestID c;
     LiveMode := LiveMode c |}.

Definition set_GeneratedResource (v : bool) (c : CLIAnalyticsEventContext) :=
  {| UserAgent := UserAgent c; InvocationID := InvocationID c;
     CommandPath := CommandPath c; Merchant := Merchant c;
     CLIVersion := CLIVersion c; OS := OS c; GeneratedResource := v;
     RequestID := RequestID c; LiveMode := LiveMode c |}.

(** ** github.com/google/go-querystring/query *)
Module query.

(** [strconv.FormatBool]. *)
Definition FormatBool (b : bool) : string := if b then "true" else "false".

(** [query.Values] on the struct: each field is added under the name of
    its [url:"..."] tag, in declaration order; no tag carries
    [omitempty], so no field is skipped. *)
Definition reflectValue (c : CLIAnalyticsEventContext) : url.Values :=
  let v := url.Add ∅ "user_agent" (UserAgent c) in
  let v := url.Add v "invocation_id" (InvocationID c) in
  let v := url.Add v "command_path" (CommandPath c) in
  let v := url.Add v "merchant" (Merchant c) in
  let v := url.Add v "cli_version" (CLIVersion c) in
  let v := url.Add v "os" (OS c) in
  let v := url.Add v "generated_resource" (FormatBool (GeneratedResource c)) in
  let v := url.Add v "request_id" (RequestID c) in
  url.Add v "livemode" (FormatBool (LiveMode c)).

End query.

(** ** The world a call runs in *)

(** A heap address; a Go pointer is an address or [nil]. *)
Definition loc := positive.
Definition ptr := option loc.

(** [verboseTransport] as [newTelemetryHTTPClient] fills it in; [Out] is
    always [os.Stderr]. *)
Record verboseTransport := {
  Transport : http.Transport;
  Verbose : bool
}.

(** [http.Client] with its one field set here. *)
Record Client := { ClientTransport : verboseTransport }.

(** The steps of a call that the statements below speak about, in the
    order they happen. *)
Inductive Event :=
| EvSleep (d : Z)                      (* time.Sleep(d) *)
| EvNewClient (c : Client)             (* an HTTP client was built *)
| EvGetenv (key : string)              (* os.Getenv(key) *)
| EvRoundTrip (req : http.Request)     (* a request went out on the wire *)
| EvStderr (dump : http.Request + http.Response)
| EvStdout (s : string).               (* fmt.Printf *)

Record World := {
  heap : gmap loc CLIAnalyticsEventContext;
  telemetryInstance : ptr;             (* var telemetryInstance *)
  telemetrySync : bool;                (* var telemetrySync: has Do run? *)
  environ : gmap string string;        (* the process environment *)
  rand_reader : nat -> Z;              (* crypto/rand, byte after byte;
                                          below zero: the read fails *)
  rand_pos : nat;                      (* bytes consumed so far *)
  now : Z;                             (* wall clock, ns since the epoch *)
  trace : list Event                   (* oldest first *)
}.

Definition set_heap (h : gmap loc CLIAnalyticsEventContext) (w : World) :=
  {| heap := h; telemetryInstance := telemetryInstance w;
     telemetrySync := telemetrySync w; environ := environ w;
     rand_reader := rand_reader w; rand_pos := rand_pos w; now := now w;
     trace := trace w |}.

Definition set_telemetryInstance (p : ptr) (w : World) :=
  {| heap := heap w; telemetryInstance := p;
     telemetrySync := telemetrySync w; environ := environ w;
     rand_reader := rand_reader w; rand_pos := rand_pos w; now := now w;
     trace := trace w |}.

Definition set_telemetrySync (b : bool) (w : World) :=
  {| heap := heap w; telemetryInstance := telemetryInstance w;
     telemetrySync := b; environ := environ w;
     rand_reader := rand_reader w; rand_pos := rand_pos w; now := now w;
     trace := trace w |}.

Definition set_rand_pos (n : nat) (w : World) :=
  {| heap := heap w; telemetryInstance := telemetryInstance w;
     telemetrySync := telemetrySync w; environ := environ w;
     rand_reader := rand_reader w; rand_pos := n; now := now w;
     trace := trace w |}.

Definition set_now (t : Z) (w : World) :=
  {| heap := heap w; telemetryInstance := telemetryInstance w;
     telemetrySync := telemetrySync w; environ := environ w;
     rand_reader := rand_reader w; rand_pos := rand_pos w; now := t;
     trace := trace w |}.

Definition set_trace (t : list Event) (w : World) :=
  {| heap := heap w; telemetryInstance := telemetryInstance w;
     telemetrySync := telemetrySync w; environ := environ w;
     rand_reader := rand_reader w; rand_pos := rand_pos w; now := now w;
     trace := t |}.

(** The state of a process that has just started. *)
Definition start (env : gmap string string) (rnd : nat -> Z) (t : Z) : World :=
  {| heap := ∅; telemetryInstance := None; telemetrySync := false;
     environ := env; rand_reader := rnd; rand_pos := 0; now := t; trace := [] |}.

(** ** The monad of Go statements *)

(** A statement either completes with a value or panics; both leave a
    world behind. *)
Inductive outcome (A : Type) : Type :=
| Returns (a : A) (w : World)
| Panics (msg : string) (w : World).
Arguments Returns {A} a w.
Arguments Panics {A} msg w.

Definition Go (A : Type) : Type := World -> outcome A.

Definition ret {A} (a : A) : Go A := fun w => Returns a w.

Definition bind {A B} (m : Go A) (k : A -> Go B) : Go B :=
  fun w => match m w with
           | Returns a w' => k a w'
           | Panics msg w' => Panics msg w'
           end.

Definition panic {A} (msg : string) : Go A := fun w => Panics msg w.

Notation "'do' x <- m ; k" := (bind m (fun x => k))
  (at level 10, x name, m at level 100, k at level 200,
   format "'[v' 'do'  x  <-  m ; '/' k ']'").
Notation "'do' ' p <- m ; k" := (bind m (fun x => let 'p := x in k))
  (at level 10, p pattern, m at level 100, k at level 200,
   format "'[v' 'do'  ' p  <-  m ; '/' k ']'").
Notation "'run' m ; k" := (bind m (fun _ => k))
  (at level 10, m at level 100, k at level 200,
   format "'[v' 'run'  m ; '/' k ']'").

Definition final_world {A} (o : outcome A) : World :=
  match o with Returns _ w => w | Panics _ w => w end.

(** What a statement handed back, if it completed. *)
Definition returned {A} (o : outcome A) : option A :=
  match o with Returns a _ => Some a | Panics _ _ => None end.

Definition emit (ev : Event) : Go unit :=
  fun w => Returns tt (set_trace (trace w ++ [ev])%list w).

(** The events a statement added, given the worlds before and after. *)
Definition new_events (before after : World) : list Event :=
  drop (length (trace before)) (trace after).

(** ** Pointers *)

(** [*e]: a nil pointer panics.  An address outside the heap cannot
    arise in Go; it is treated like nil. *)
Definition load (e : ptr) : Go CLIAnalyticsEventContext :=
  fun w => match e with
           | Some l =>
               match heap w !! l with
               | Some c => Returns c w
               | None => Panics "invalid memory address or nil pointer dereference" w
               end
           | None => Panics "invalid memory address or nil pointer dereference" w
           end.

(** [e.f = v] for a field setter [f]. *)
Definition store (e : ptr) (f : CLIAnalyticsEventContext -> CLIAnalyticsEventContext)
  : Go unit :=
  do c <- load e;
  fun w => match e with
           | Some l => Returns tt (set_heap (<[l := f c]> (heap w)) w)
           | None => Returns tt w
           end.

(** [&CLIAnalyticsEventContext{}]: a fresh address holding the zero value. *)
Definition new_context : Go ptr :=
  fun w => let l := fresh (dom (heap w)) in
           Returns (Some l) (set_heap (<[l := zero_context]> (heap w)) w).

(** [for _, x := range xs { body }]. *)
Fixpoint for_range {A} (xs : list A) (body : A -> Go unit) : Go unit :=
  match xs with
  | [] => ret tt
  | x :: rest => run body x; for_range rest body
  end.

(** ** Standard-library calls with effects *)

(** [time.Sleep]: returns at once for [d <= 0]; otherwise the clock has
    moved on by [d] when it returns (Go promises at least [d]; the least
    is taken). *)
Definition time_Sleep (d : Z) : Go unit :=
  run emit (EvSleep d);
  fun w => Returns tt (set_now (now w + Z.max 0 d) w).

(** [time.Now().Unix()]: whole seconds since the epoch. *)
Definition time_Now_Unix : Go Z := fun w => Returns (now w / time.Second) w.

(** [os.Getenv]: the value, or the empty string when unset. *)
Definition os_Getenv (key : string) : Go string :=
  run emit (EvGetenv key);
  fun w => Returns (default "" (environ w !! key)) w.

(** [fmt.Printf] of a constant format. *)
Definition fmt_Printf (s : string) : Go unit := emit (EvStdout s).

(** Can the random source deliver the [n] bytes that start [k] bytes
    after the ones already read? *)
Definition rand_ready (w : World) (k n : nat) : bool :=
  forallb (fun i => 0 <=? rand_reader w (rand_pos w + k + i)%nat) (seq 0 n).

(** [io.ReadFull(rander, buf[:n])]: all [n] bytes, or an error. *)
Definition rand_Read (n : nat) : Go (list Z * option error) :=
  fun w => if rand_ready w 0 n
           then Returns (map (fun i => rand_reader w (rand_pos w + i)%nat `mod` 256)
                             (seq 0 n), None)
                        (set_rand_pos (rand_pos w + n) w)
           else Returns ([], Some (errors_New "crypto/rand: read failed")) w.

(** [uuid.NewString], that is [Must(NewRandom()).String()]: sixteen random
    bytes, stamped and printed; a panic when the random source fails. *)
Definition uuid_NewString : Go string :=
  do '(raw, err) <- rand_Read 16;
  match err with
  | Some err => panic (Error err)
  | None => ret (uuid.String (uuid.stamp raw))
  end.

(** [query.Values(e)]: a nil pointer yields an empty map and no error; the
    error result is nil for every pointer to a struct. *)
Definition query_Values (e : ptr) : Go (url.Values * option error) :=
  match e with
  | None => ret (∅, None)
  | Some _ => do c <- load e; ret (query.reflectValue c, None)
  end.

(** [Request.WithContext]: panics on a nil context. *)
Definition Request_WithContext (r : http.Request) (c : option context.Context)
  : Go http.Request :=
  match c with
  | None => panic "nil context"
  | Some c => ret (http.set_ctx c r)
  end.

(** ** Vocabulary for the statements *)

Definition optout_key : string := "STRIPE_CLI_TELEMETRY_OPTOUT".
Definition analytics_endpoint : string := "https://r.stripe.com/0".
Definition confirmation : string := "Sent telemetry event".

(** The value [os.Getenv] gives for the opt-out variable in a world. *)
Definition optout_value (w : World) : string := default "" (environ w !! optout_key).

(** The client [newTelemetryHTTPClient(false)] builds. *)
Definition telemetry_client : Client :=
  {| ClientTransport :=
       {| Transport :=
            {| http.ProxyFromEnvironment := true;
               http.DialTimeout := 30 * time.Second;
               http.DialKeepAlive := 30 * time.Second;
               http.TLSHandshakeTimeout := 10 * time.Second |};
          Verbose := false |} |}.

(** What [SendEvent] does before it looks at the opt-out value, and the
    world it has made by then. *)
Definition gate_events : list Event :=
  [EvSleep (5 * time.Second); EvNewClient telemetry_client; EvGetenv optout_key].

(** The world a call of [SendEvent] leaves: the pre-send delay has
    passed, [evs] were added to the trace and [drawn] random bytes used. *)
Definition world_after (w : World) (evs : list Event) (drawn : nat) : World :=
  {| heap := heap w; telemetryInstance := telemetryInstance w;
     telemetrySync := telemetrySync w; environ := environ w;
     rand_reader := rand_reader w; rand_pos := rand_pos w + drawn;
     now := now w + 5 * time.Second; trace := (trace w ++ evs)%list |}.

(** The sixteen bytes the next read of the random source returns, from
    offset [k] on, and the identifier [uuid.NewString] makes of them. *)
Definition draw (w : World) (k : nat) : list Z :=
  map (fun i => rand_reader w (rand_pos w + k + i)%nat `mod` 256) (seq 0 16).

Definition uuid_at (w : World) (k : nat) : string :=
  uuid.String (uuid.stamp (draw w k)).

(** Is the pointer nil or the address of a live record; what it points to. *)
Definition valid_ptr (e : ptr) (w : World) : Prop :=
  match e with
  | Some l => is_Some (heap w !! l)
  | None => True
  end.

Definition pointee (e : ptr) (w : World) : option CLIAnalyticsEventContext :=
  match e with
  | Some l => heap w !! l
  | None => None
  end.

(** The form [SendEvent] fills in (lines 97 to 103) and the request it
    makes of it (lines 105 to 115), as values. *)
Definition sent_form (oc : option CLIAnalyticsEventContext)
           (id eventName eventValue : string) (unix : Z) : url.Values :=
  let data := match oc with
              | Some c => query.reflectValue c
              | None => ∅
              end in
  let data := url.Set_ data "client_id" "stripe-cli" in
  let data := url.Set_ data "event_id" id in
  let data := url.Set_ data "event_name" eventName in
  let data := url.Set_ data "event_value" eventValue in
  url.Set_ data "created" (fmt_Sprint unix).

Definition sent_request (u : url_URL) (ctx : option context.Context)
           (data : url.Values) : http.Request :=
  {| http.Method := http.MethodPost;
     http.URL := url_String u;
     http.Hdr := http.Header_Set
                   (http.Header_Set ∅ "origin" "stripe-cli")
                   "Content-Type" "application/x-www-form-urlencoded";
     http.Body := url.Encode data;
     http.ctx := default context.Background ctx |}.

(** The keys of the form, as [Values.Encode] orders them. *)
Definition form_keys : list string :=
  [ "cli_version"; "client_id"; "command_path"; "created"; "event_id";
    "event_name"; "event_value"; "generated_resource"; "invocation_id";
    "livemode"; "merchant"; "os"; "request_id"; "user_agent" ].

(** Counting in a trace. *)
Definition round_trips (evs : list Event) : list http.Request :=
  omap (fun ev => match ev with EvRoundTrip r => Some r | _ => None end) evs.

Definition printed (evs : list Event) : list string :=
  omap (fun ev => match ev with EvStdout s => Some s | _ => None end) evs.

Definition sleeps (evs : list Event) : list Z :=
  omap (fun ev => match ev with EvSleep d => Some d | _ => None end) evs.

(** [strings.Split(s, sep)] for a one-byte separator. *)
Fixpoint split_on (sep : ascii) (s : string) : list string :=
  match s with
  | EmptyString => [""]
  | String c s' =>
      if Ascii.eqb c sep then "" :: split_on sep s'
      else match split_on sep s' with
           | x :: rest => String c x :: rest
           | [] => [String c ""]
           end
  end.

(** Does the byte occur in the string. *)
Fixpoint contains (c : ascii) (s : string) : bool :=
  match s with
  | EmptyString => false
  | String c' s' => Ascii.eqb c' c || contains c s'
  end.


(** Does some annotation of the command have the value [operation]. *)
Definition is_generated (cmd : cobra.Command) : bool :=
  existsb (fun kv : string * string => String.eqb (snd kv) "operation")
          (map_to_list (cobra.Annotations cmd)).

(** The private variables are as an earlier state left them and no
    record has gone away.  Code outside [GetAnalyticsEventContext] never
    assigns the two variables, and Go frees nothing that is reachable. *)
Definition later (w w' : World) : Prop :=
  telemetryInstance w' = telemetryInstance w
  /\ telemetrySync w' = telemetrySync w
  /\ dom (heap w) ⊆ dom (heap w').

(** What holds of the two private variables between calls: unset with
    the guard open, or the address of a live record with the guard shut. *)
Definition singleton_inv (w : World) : Prop :=
  if telemetrySync w
  then exists l, telemetryInstance w = Some l /\ is_Some (heap w !! l)
  else telemetryInstance w = None.

(** ** net/url, decoding *)

(** [ishex] and [unhex] of net/url: both cases of the letters count. *)
Definition url_ishex (c : ascii) : bool :=
  let n := byte_of_ascii c in
  ((48 <=? n) && (n <=? 57)) || ((97 <=? n) && (n <=? 102))
  || ((65 <=? n) && (n <=? 70)).

Definition url_unhex (c : ascii) : Z :=
  let n := byte_of_ascii c in
  if (48 <=? n) && (n <=? 57) then n - 48
  else if (97 <=? n) && (n <=? 102) then n - 97 + 10
  else if (65 <=? n) && (n <=? 70) then n - 65 + 10
  else 0.

(** [url.QueryUnescape]: [%XX] becomes the byte, [+] a space; a [%] not
    followed by two hexadecimal digits is an error. *)
Fixpoint url_QueryUnescape (s : string) : option string :=
  match s with
  | EmptyString => Some ""
  | String c s' =>
      if Ascii.eqb c "%" then
        match s' with
        | String h (String l s'') =>
            if url_ishex h && url_ishex l
            then String (ascii_of_byte (Z.lor (Z.shiftl (url_unhex h) 4) (url_unhex l)))
                   <$> url_QueryUnescape s''
            else None
        | _ => None
        end
      else if Ascii.eqb c "+" then String " " <$> url_QueryUnescape s'
      else String c <$> url_QueryUnescape s'
  end.

(** ** The order of a [range] over a map *)

(** [SetCommandContext] with the order in which [range] visits the
    annotations made explicit; Go fixes none. *)
Definition SetCommandContext_ranging (order : list (string * string))
           (e : ptr) (cmd : cobra.Command) : Go unit :=
  run store e (set_CommandPath (cobra.CommandPath cmd));
  run store e (set_GeneratedResource false);
  for_range order
    (fun '(_, value) =>
       if String.eqb value "operation"
       then store e (set_GeneratedResource true)
       else ret tt).

(** ** Sample surroundings, for running the definitions *)

(** The opt-out values the CLI documents: [1] and [true]. *)
Definition sample_optedOut (s : string) : bool := bool_decide (s ∈ ["1"; "true"]).

Definition sample_Parse (s : string) : url_URL + error := inl {| url_String := s |}.
Definition broken_Parse (s : string) : url_URL + error :=
  inr (errors_New "parse: invalid URL").

Definition sample_check (method url : string) : option error := None.
Definition broken_check (method url : string) : option error :=
  Some (errors_New "net/http: invalid method").

Definition sample_response : http.Response :=
  {| http.StatusCode := 200; http.RespHdr := ∅; http.RespBody := "" |}.
Definition sample_network (r : http.Request) : http.Response + error :=
  inl sample_response.
Definition unreachable_network (r : http.Request) : http.Response + error :=
  inr (errors_New "dial tcp: connection refused").


(** A server that sends every request back to where it came from. *)
Definition looping_network (r : http.Request) : http.Response + error :=
  inl {| http.StatusCode := 302;
         http.RespHdr := http.Header_Set ∅ "Location" analytics_endpoint;
         http.RespBody := "" |}.

(** A client that sends the headers and the context of the first
    request, and its body when told to, to the place a redirect names;
    a [Location] that starts with a colon does not parse. *)
Definition sample_next_request (ireq req : http.Request) (loc method : string)
           (includeBody : bool) : http.Request + error :=
  if String.eqb (substring 0 1 loc) ":"
  then inr (errors_New "failed to parse Location header: missing protocol scheme")
  else inl {| http.Method := method; http.URL := loc; http.Hdr := http.Hdr ireq;
              http.Body := if includeBody then http.Body ireq else "";
              http.ctx := http.ctx ireq |}.

Definition sample_rand (n : nat) : Z := Z.of_nat (n * 37 + 11).

(** A random source that fails, and one that repeats itself. *)
Definition dry_rand (n : nat) : Z := -1.
Definition stuck_rand (n : nat) : Z := 7.

Definition sample_context : CLIAnalyticsEventContext :=
  {| UserAgent := "Stripe/v1 stripe-cli/1.7.0";
     InvocationID := "";
     CommandPath := "stripe customers list";
     Merchant := "acct_123";
     CLIVersion := "1.7.0";
     OS := "linux";
     GeneratedResource := true;
     RequestID := "req_42";
     LiveMode := false |}.

(** A process with one record at address 1, published as the singleton,
    at 2023-11-14 22:13:20 UTC; without and with the opt-out. *)
Definition sample_world : World :=
  {| heap := {[ 1%positive := sample_context ]};
     telemetryInstance := Some 1%positive; telemetrySync := true;
     environ := ∅; rand_reader := sample_rand; rand_pos := 0;
     now := 1700000000 * time.Second; trace := [] |}.

Definition optout_world : World :=
  {| heap := {[ 1%positive := sample_context ]};
     telemetryInstance := Some 1%positive; telemetrySync := true;
     environ := {[ optout_key := "true" ]}; rand_reader := sample_rand;
     rand_pos := 0; now := 1700000000 * time.Second; trace := [] |}.

Definition dry_world : World :=
  {| heap := {[ 1%positive := sample_context ]};
     telemetryInstance := Some 1%positive; telemetrySync := true;
     environ := ∅; rand_reader := dry_rand; rand_pos := 0;
     now := 1700000000 * time.Second; trace := [] |}.

Definition stuck_world : World :=
  {| heap := {[ 1%positive := sample_context ]};
     telemetryInstance := Some 1%positive; telemetrySync := true;
     environ := ∅; rand_reader := stuck_rand; rand_pos := 0;
     now := 1700000000 * time.Second; trace := [] |}.

Definition sample_command : cobra.Command :=
  cobra.mkCommand "list [flags]" {[ "list" := "operation" ]}
    (Some (cobra.mkCommand "customers" ∅
             (Some (cobra.mkCommand "stripe" ∅ None)))).

Definition plain_command : cobra.Command :=
  cobra.mkCommand "login" {[ "kind" := "auth" ]}
    (Some (cobra.mkCommand "stripe" ∅ None)).

(** ** analytics_telemetry.go *)

(** [sync.Once.Do] on [telemetrySync]: [f] runs if no call has run it
    before; the flag is set when [f] is over, also when it panicked. *)
Definition telemetrySync_Do (f : Go unit) : Go unit :=
  fun w =>
    if telemetrySync w then Returns tt w
    else match f w with
         | Returns _ w' => Returns tt (set_telemetrySync true w')
         | Panics msg w' => Panics msg (set_telemetrySync true w')
         end.

Definition GetAnalyticsEventContext : Go ptr :=
  run telemetrySync_Do
        (do p <- new_context;
         fun w => Returns tt (set_telemetryInstance p w));
  fun w => Returns (telemetryInstance w) w.

Definition SetCommandContext (e : ptr) (cmd : cobra.Command) : Go unit :=
  run store e (set_CommandPath (cobra.CommandPath cmd));
  run store e (set_GeneratedResource false);
  for_range (map_to_list (cobra.Annotations cmd))
    (fun '(_, value) =>
       if String.eqb value "operation"
       then store e (set_GeneratedResource true)
       else ret tt).

Definition SetInvocationID (e : ptr) : Go unit :=
  do id <- uuid_NewString;
  store e (set_InvocationID id).

Definition newTelemetryHTTPClient (verbose : bool) : Go Client :=
  let httpTransport :=
    {| http.ProxyFromEnvironment := true;
       http.DialTimeout := 30 * time.Second;
       http.DialKeepAlive := 30 * time.Second;
       http.TLSHandshakeTimeout := 10 * time.Second |} in
  let tr := {| Transport := httpTransport; Verbose := verbose |} in
  let client := {| ClientTransport := tr |} in
  run emit (EvNewClient client);
  ret client.

(** ** net/http, the client's redirects *)

(** [redirectBehavior] for a request that can send its body again, as
    every request [http.NewRequest] makes from a [strings.Reader] can:
    the method of the next request, whether to go on, and whether the
    body goes along. *)
Definition redirectBehavior (reqMethod : string) (resp : http.Response)
  : string * bool * bool :=
  let code := http.StatusCode resp in
  if (code =? 301) || (code =? 302) || (code =? 303) then
    (if String.eqb reqMethod "GET" || String.eqb reqMethod "HEAD"
     then reqMethod else "GET", true, false)
  else if (code =? 307) || (code =? 308) then (reqMethod, true, true)
  else ("", false, false).

Fixpoint ascii_ToLower (s : string) : string :=
  match s with
  | EmptyString => ""
  | String c s' =>
      String (if http.is_upper c then ascii_of_byte (byte_of_ascii c + 32) else c)
             (ascii_ToLower s')
  end.

(** [urlErrorOp]: the method with its first letter kept and the rest in
    lower case, [Get] for the empty method. *)
Definition urlErrorOp (method : string) : string :=
  match method with
  | EmptyString => "Get"
  | String c rest => String c (ascii_ToLower rest)
  end.

Section Platform.

(** [telemetryOptedOut], defined in another file of the package: which
    values of the opt-out variable count as set. *)
Variable telemetryOptedOut : string -> bool.

(** [url.Parse]. *)
Variable url_Parse : string -> url_URL + error.

(** The checks of [http.NewRequest] on method and URL: the error it
    reports, if any. *)
Variable http_NewRequest_check : string -> string -> option error.

(** The network and the server behind it: what sending a request
    comes to. *)
Variable network : http.Request -> http.Response + error.

(** [http.NewRequest]: a request with the background context and no
    header when the checks pass. *)
Definition http_NewRequest (method url body : string) : http.Request + error :=
  match http_NewRequest_check method url with
  | Some err => inr err
  | None =>
      inl {| http.Method := method; http.URL := url; http.Hdr := ∅;
             http.Body := body; http.ctx := context.Background |}
  end.

(** [http.Transport.RoundTrip]: the request goes out, once. *)
Definition Transport_RoundTrip (t : http.Transport) (req : http.Request)
  : Go (option http.Response * option error) :=
  run emit (EvRoundTrip req);
  match network req with
  | inl resp => ret (Some resp, None)
  | inr err => ret (None, Some err)
  end.

(** Modelled from the spec: [verboseTransport.RoundTrip] is defined in
    another file of the package.  In verbose mode the outgoing request
    and the incoming response are logged to the diagnostic stream before
    the response is returned; otherwise it passes the call through. *)
Definition verboseTransport_RoundTrip (t : verboseTransport) (req : http.Request)
  : Go (option http.Response * option error) :=
  if Verbose t then
    run emit (EvStderr (inl req));
    do '(resp, err) <- Transport_RoundTrip (Transport t) req;
    match resp with
    | Some r => run emit (EvStderr (inr r)); ret (resp, err)
    | None => ret (resp, err)
    end
  else Transport_RoundTrip (Transport t) req.

(** What [http.Client] makes of a redirect it follows, from the first
    request, the one just answered, the [Location] of the answer, the
    method to use and whether the body goes along: the next request, or
    the error of a [Location] that does not parse. *)
Variable next_request :
  http.Request -> http.Request -> string -> string -> bool -> http.Request + error.

(** The loop of [http.Client.do].  Each request goes through the
    client's transport.  A transport error ends the call.  A response
    that [redirectBehavior] marks and that names a [Location] is
    followed; the default [CheckRedirect] (the client sets none) stops
    after ten requests and hands back the last response together with an
    error.  [more] counts the requests that may still follow this one. *)
Fixpoint Client_do (more : nat) (client : Client) (ireq req : http.Request)
  : Go (option http.Response * option error) :=
  do '(resp, err) <- verboseTransport_RoundTrip (ClientTransport client) req;
  match resp, err with
  | _, Some err =>
      ret (None, Some (url_Error (urlErrorOp (http.Method ireq)) (http.URL req) err))
  | None, None =>
      ret (None, Some (url_Error (urlErrorOp (http.Method ireq)) (http.URL req)
                         (errors_New "http: RoundTripper returned a nil *Response with a nil error")))
  | Some r, None =>
      let '(redirectMethod, shouldRedirect, includeBody) :=
        redirectBehavior (http.Method req) r in
      if negb shouldRedirect then ret (Some r, None) else
      let loc := http.Header_Get (http.RespHdr r) "Location" in
      if String.eqb loc "" then ret (Some r, None) else
      match next_request ireq req loc redirectMethod includeBody with
      | inr err =>
          ret (None, Some (url_Error (urlErrorOp (http.Method ireq)) (http.URL req) err))
      | inl req' =>
          match more with
          | O => ret (Some r,
                      Some (url_Error (urlErrorOp (http.Method ireq)) loc
                              (errors_New "stopped after 10 redirects")))
          | S more' => Client_do more' client ireq req'
          end
      end
  end.

(** [http.Client.Do]: the first request and up to nine that follow
    redirects. *)
Definition Client_Do (client : Client) (req : http.Request)
  : Go (option http.Response * option error) :=
  Client_do 9 client req req.

(** The same loop without the world: the requests that go out, in
    order, and what [Client.Do] hands back. *)
Fixpoint client_run (more : nat) (ireq req : http.Request)
  : list http.Request * (option http.Response * option error) :=
  match network req with
  | inr err =>
      ([req], (None, Some (url_Error (urlErrorOp (http.Method ireq)) (http.URL req) err)))
  | inl r =>
      let '(redirectMethod, shouldRedirect, includeBody) :=
        redirectBehavior (http.Method req) r in
      if negb shouldRedirect then ([req], (Some r, None)) else
      let loc := http.Header_Get (http.RespHdr r) "Location" in
      if String.eqb loc "" then ([req], (Some r, None)) else
      match next_request ireq req loc redirectMethod includeBody with
      | inr err =>
          ([req], (None, Some (url_Error (urlErrorOp (http.Method ireq)) (http.URL req) err)))
      | inl req' =>
          match more with
          | O => ([req], (Some r,
                          Some (url_Error (urlErrorOp (http.Method ireq)) loc
                                  (errors_New "stopped after 10 redirects"))))
          | S more' =>
              let '(rs, res) := client_run more' ireq req' in (req :: rs, res)
          end
      end
  end.

(** Does the client go on to another request after this answer? *)
Definition follows (req : http.Request) (r : http.Response) : bool :=
  let '(_, shouldRedirect, _) := redirectBehavior (http.Method req) r in
  shouldRedirect && negb (String.eqb (http.Header_Get (http.RespHdr r) "Location") "").

(** Requests sent one after the other by one call of [Client.Do]: at
    most ten, and each one that another follows was answered by a
    redirect the client goes after. *)
Definition redirect_chain (rs : list http.Request) : Prop :=
  (length rs <= 10)%nat
  /\ forall i r, rs !! i = Some r -> (S i < length rs)%nat ->
       exists resp, network r = inl resp /\ follows r resp = true.

Definition SendEvent (e : ptr) (ctx : option context.Context)
           (eventName eventValue : string)
  : Go (option http.Response * option error) :=
  run time_Sleep (5 * time.Second);
  do client <- newTelemetryHTTPClient false;
  do optout <- os_Getenv "STRIPE_CLI_TELEMETRY_OPTOUT";
  if telemetryOptedOut optout then ret (None, None) else
  match url_Parse "https://r.stripe.com/0" with
  | inr err => ret (None, Some err)
  | inl analyticsURL =>
      do '(data, _) <- query_Values e;
      let data := url.Set_ data "client_id" "stripe-cli" in
      do id <- uuid_NewString;
      let data := url.Set_ data "event_id" id in
      let data := url.Set_ data "event_name" eventName in
      let data := url.Set_ data "event_value" eventValue in
      do t <- time_Now_Unix;
      let data := url.Set_ data "created" (fmt_Sprint t) in
      match http_NewRequest http.MethodPost (url_String analyticsURL)
                            (url.Encode data) with
      | inr err => ret (None, Some err)
      | inl req =>
          let req := http.set_Hdr (http.Header_Set (http.Hdr req) "origin" "stripe-cli") req in
          let req := http.set_Hdr (http.Header_Set (http.Hdr req) "Content-Type"
                                     "application/x-www-form-urlencoded") req in
          do req <- match ctx with
                    | Some _ => Request_WithContext req ctx
                    | None => ret req
                    end;
          do '(resp, err) <- Client_Do client req;
          match err with
          | Some err => ret (None, Some err)
          | None =>
              run fmt_Printf "Sent telemetry event";
              ret (resp, None)
          end
      end
  end.


(** ** Running [SendEvent] *)

Lemma new_events_app (w w' : World) (evs : list Event) :
  trace w' = (trace w ++ evs)%list -> new_events w w' = evs.
Proof.
  intros H. unfold new_events. rewrite H. apply drop_app_length.
Qed.

Lemma new_events_world_after (w : World) (evs : list Event) (n : nat) :
  new_events w (world_after w evs n) = evs.
Proof. apply new_events_app. reflexivity. Qed.

Lemma new_events_after (w : World) (evs more : list Event) (n m : nat) :
  new_events (world_after w evs n) (world_after w (evs ++ more) m) = more.
Proof. apply new_events_app. cbn. apply app_assoc. Qed.

(** The three statements in front of the opt-out test. *)
Lemma gate_run (w : World) :
  (run time_Sleep (5 * time.Second);
   do client <- newTelemetryHTTPClient false;
   do optout <- os_Getenv optout_key;
   ret (client, optout)) w
  = Returns (telemetry_client, optout_value w) (world_after w gate_events 0).
Proof.
  destruct w as [h ti ts env rr rp t tr].
  unfold world_after, optout_value, gate_events. cbn.
  rewrite <- !app_assoc, Nat.add_0_r. reflexivity.
Qed.

Lemma rand_ready_world_after (w : World) (evs : list Event) (k n : nat) :
  rand_ready (world_after w evs 0) k n = rand_ready w k n.
Proof.
  unfold rand_ready. cbn [rand_reader rand_pos world_after].
  rewrite Nat.add_0_r. reflexivity.
Qed.

Lemma draw_0 (w : World) (evs : list Event) :
  rand_ready w 0 16 = true ->
  rand_Read 16 (world_after w evs 0)
  = Returns (draw w 0, None) (world_after w evs 16).
Proof.
  intros Hr. unfold rand_Read. rewrite rand_ready_world_after, Hr.
  destruct w as [h ti ts env rr rp t tr].
  unfold world_after, draw, set_rand_pos. cbn [rand_reader rand_pos heap
    telemetryInstance telemetrySync environ now trace].
  rewrite !Nat.add_0_r. reflexivity.
Qed.

Lemma draw_fails (w : World) (evs : list Event) :
  rand_ready w 0 16 = false ->
  rand_Read 16 (world_after w evs 0)
  = Returns ([], Some (errors_New "crypto/rand: read failed")) (world_after w evs 0).
Proof.
  intros Hr. unfold rand_Read. rewrite rand_ready_world_after, Hr. reflexivity.
Qed.

(** ** The client's loop *)

Lemma set_trace_world_after (w : World) (evs more : list Event) (n : nat) :
  set_trace (trace (world_after w evs n) ++ more) (world_after w evs n)
  = world_after w (evs ++ more) n.
Proof.
  unfold set_trace, world_after. cbn. rewrite app_assoc. reflexivity.
Qed.

Lemma set_trace_set_trace (W : World) (a b : list Event) :
  set_trace (trace (set_trace (trace W ++ a) W) ++ b) (set_trace (trace W ++ a) W)
  = set_trace (trace W ++ a ++ b) W.
Proof. unfold set_trace. cbn. rewrite app_assoc. reflexivity. Qed.

(** The telemetry client's loop does what [client_run] says and adds
    one round trip to the trace for each request. *)
Lemma Client_do_run (more : nat) (ireq req : http.Request) (W : World) :
  Client_do more telemetry_client ireq req W
  = Returns (client_run more ireq req).2
            (set_trace (trace W ++ map EvRoundTrip (client_run more ireq req).1) W).
Proof.
  revert req W. induction more as [|more IH]; intros req W;
    cbn [Client_do client_run];
    unfold verboseTransport_RoundTrip, Transport_RoundTrip, bind, ret, emit;
    cbn [ClientTransport telemetry_client Verbose Transport];
    (destruct (network req) as [r|err]; [|reflexivity]);
    destruct (redirectBehavior (http.Method req) r) as [[m should] body];
    (destruct should; cbn [negb]; [|reflexivity]);
    (destruct (String.eqb (http.Header_Get (http.RespHdr r) "Location") "");
     [reflexivity|]);
    (destruct (next_request ireq req _ m body) as [req'|err]; [|reflexivity]).
  - reflexivity.
  - rewrite IH. destruct (client_run more ireq req') as [rs res].
    cbn [fst snd map]. f_equal.
    exact (set_trace_set_trace W [EvRoundTrip req] (map EvRoundTrip rs)).
Qed.

Lemma sleeps_app (a b : list Event) : sleeps (a ++ b) = (sleeps a ++ sleeps b)%list.
Proof. unfold sleeps. apply omap_app. Qed.

Lemma round_trips_app (a b : list Event) :
  round_trips (a ++ b) = (round_trips a ++ round_trips b)%list.
Proof. unfold round_trips. apply omap_app. Qed.


Lemma sleeps_map (rs : list http.Request) : sleeps (map EvRoundTrip rs) = [].
Proof. induction rs; [reflexivity|exact IHrs]. Qed.


Lemma round_trips_map (rs : list http.Request) :
  round_trips (map EvRoundTrip rs) = rs.
Proof.
  unfold round_trips. induction rs as [|r rs IH]; [reflexivity|].
  cbn. f_equal. exact IH.
Qed.

(** The request handed to [Client.Do] is the first to go out. *)
Lemma client_run_first (more : nat) (ireq req : http.Request) :
  exists rest, (client_run more ireq req).1 = req :: rest.
Proof.
  destruct more; cbn [client_run];
    (destruct (network req) as [r|err]; [|exists []; reflexivity]);
    destruct (redirectBehavior (http.Method req) r) as [[m should] body];
    (destruct should; cbn [negb]; [|exists []; reflexivity]);
    (destruct (String.eqb (http.Header_Get (http.RespHdr r) "Location") "");
     [exists []; reflexivity|]);
    (destruct (next_request ireq req _ m body) as [req'|err];
     [|exists []; reflexivity]).
  - exists []. reflexivity.
  - destruct (client_run more ireq req') as [rs res]. exists rs. reflexivity.
Qed.

(** No more than [more] requests follow the first, and a request that
    another follows was answered by a redirect. *)
Lemma client_run_chain (more : nat) (ireq req : http.Request) :
  (length (client_run more ireq req).1 <= S more)%nat
  /\ forall i r, (client_run more ireq req).1 !! i = Some r ->
       (S i < length (client_run more ireq req).1)%nat ->
       exists resp, network r = inl resp /\ follows r resp = true.
Proof.
  revert req. induction more as [|more IH]; intros req; cbn [client_run];
    assert (Hone : forall res : option http.Response * option error,
      (length ([req], res).1 <= 1)%nat
      /\ forall i r, ([req], res).1 !! i = Some r ->
           (S i < length ([req], res).1)%nat ->
           exists resp, network r = inl resp /\ follows r resp = true)
      by (intros res; cbn; split; [lia|intros i r _ Hi; lia]);
    (destruct (network req) as [r|err] eqn:Hnet;
     [|split; [etrans; [apply Hone|lia]|apply Hone]]);
    unfold follows at 1;
    destruct (redirectBehavior (http.Method req) r) as [[m should] body] eqn:Hrb;
    (destruct should; cbn [negb];
     [|split; [etrans; [apply Hone|lia]|apply Hone]]);
    (destruct (String.eqb (http.Header_Get (http.RespHdr r) "Location") "") eqn:Hloc;
     [split; [etrans; [apply Hone|lia]|apply Hone]|]);
    (destruct (next_request ireq req _ m body) as [req'|err];
     [|split; [etrans; [apply Hone|lia]|apply Hone]]).
  - apply Hone.
  - specialize (IH req'). destruct (client_run more ireq req') as [rs res].
    cbn [fst snd length] in *. destruct IH as [Hlen Hfol]. split; [lia|].
    intros [|i] r0 Hi Hlt.
    + cbn in Hi. injection Hi as <-. exists r. split; [exact Hnet|].
      unfold follows. rewrite Hrb, Hloc. reflexivity.
    + cbn in Hi. apply (Hfol i r0 Hi). lia.
Qed.

Lemma Client_Do_chain (req : http.Request) :
  redirect_chain (client_run 9 req req).1.
Proof. exact (client_run_chain 9 req req). Qed.

(** A transport that fails on the first request ends the call. *)
Lemma client_run_error (more : nat) (ireq req : http.Request) (err : error) :
  network req = inr err ->
  client_run more ireq req
  = ([req], (None, Some (url_Error (urlErrorOp (http.Method ireq)) (http.URL req) err))).
Proof. intros H. destruct more; cbn [client_run]; rewrite H; reflexivity. Qed.

(** So does an answer the client does not follow, whatever its status:
    it is handed back without an error. *)
Lemma client_run_answer (more : nat) (ireq req : http.Request) (r : http.Response) :
  network req = inl r -> follows req r = false ->
  client_run more ireq req = ([req], (Some r, None)).
Proof.
  intros H Hf. unfold follows in Hf.
  destruct more; cbn [client_run]; rewrite H;
    destruct (redirectBehavior (http.Method req) r) as [[m should] body];
    (destruct should; cbn [negb]; [|reflexivity]);
    cbn [andb] in Hf; apply negb_false_iff in Hf; rewrite Hf; reflexivity.
Qed.

(** [Client.Do] returns no error only with the answer to the last
    request it sent, an answer it does not follow. *)
Lemma client_run_ok (more : nat) (ireq req : http.Request) :
  (client_run more ireq req).2.2 = None ->
  exists r final,
    (client_run more ireq req).2.1 = Some r
    /\ last (client_run more ireq req).1 = Some final
    /\ network final = inl r /\ follows final r = false.
Proof.
  revert req. induction more as [|more IH]; intros req; cbn [client_run];
    (destruct (network req) as [r|err] eqn:Hnet; [|discriminate]);
    unfold follows;
    destruct (redirectBehavior (http.Method req) r) as [[m should] body] eqn:Hrb;
    (destruct should; cbn [negb];
     [|intros _; exists r, req; rewrite Hnet, Hrb; auto]);
    (destruct (String.eqb (http.Header_Get (http.RespHdr r) "Location") "") eqn:Hloc;
     [intros _; exists r, req; rewrite Hnet, Hrb, Hloc; auto|]);
    (destruct (next_request ireq req _ m body) as [req'|err]; [|discriminate]).
  - discriminate.
  - specialize (IH req'). destruct (client_run_first more ireq req') as [rest Hrest].
    destruct (client_run more ireq req') as [rs res]. cbn [fst snd] in *.
    intros H. destruct (IH H) as (r0 & final & Hr0 & Hlast & Hn & Hf).
    exists r0, final. subst rs. auto.
Qed.

(** An error from [Client.Do] is a [*url.Error]. *)
Lemma client_run_wraps (more : nat) (ireq req : http.Request) (err : error) :
  (client_run more ireq req).2.2 = Some err ->
  exists url cause, err = url_Error (urlErrorOp (http.Method ireq)) url cause.
Proof.
  revert req. induction more as [|more IH]; intros req; cbn [client_run];
    (destruct (network req) as [r|e0]; [|intros [= <-]; eauto]);
    destruct (redirectBehavior (http.Method req) r) as [[m should] body];
    (destruct should; cbn [negb]; [|discriminate]);
    (destruct (String.eqb (http.Header_Get (http.RespHdr r) "Location") "");
     [discriminate|]);
    (destruct (next_request ireq req _ m body) as [req'|e0];
     [|intros [= <-]; eauto]).
  - intros [= <-]. eauto.
  - specialize (IH req'). destruct (client_run more ireq req') as [rs res].
    exact IH.
Qed.

Lemma query_Values_run (e : ptr) (w : World) (evs : list Event) (n : nat) :
  valid_ptr e w ->
  query_Values e (world_after w evs n)
  = Returns (match pointee e w with
             | Some c => query.reflectValue c
             | None => ∅
             end, None) (world_after w evs n).
Proof.
  destruct e as [l|]; cbn; [|reflexivity].
  intros [c Hc]. unfold bind, load. cbn. rewrite Hc. reflexivity.
Qed.

(** Every way a call of [SendEvent] on a nil or live receiver can go. *)
Lemma SendEvent_run (e : ptr) (ctx : option context.Context)
      (eventName eventValue : string) (w : World) :
  valid_ptr e w ->
  SendEvent e ctx eventName eventValue w =
  if telemetryOptedOut (optout_value w)
  then Returns (None, None) (world_after w gate_events 0)
  else
    match url_Parse analytics_endpoint with
    | inr err => Returns (None, Some err) (world_after w gate_events 0)
    | inl u =>
        if rand_ready w 0 16 then
          let data := sent_form (pointee e w) (uuid_at w 0) eventName eventValue
                                ((now w + 5 * time.Second) / time.Second) in
          match http_NewRequest_check http.MethodPost (url_String u) with
          | Some err => Returns (None, Some err) (world_after w gate_events 16)
          | None =>
              let req := sent_request u ctx data in
              let out := client_run 9 req req in
              match out.2.2 with
              | Some err =>
                  Returns (None, Some err)
                          (world_after w (gate_events ++ map EvRoundTrip out.1) 16)
              | None =>
                  Returns (out.2.1, None)
                          (world_after w (gate_events ++ map EvRoundTrip out.1
                                          ++ [EvStdout confirmation]) 16)
              end
          end
        else Panics "crypto/rand: read failed" (world_after w gate_events 0)
    end.
Proof.
  intros Hv. pose proof (gate_run w) as Hg.
  unfold SendEvent, bind, ret in *.
  destruct (time_Sleep (5 * time.Second) w) as [[] w1|]; [|discriminate].
  destruct (newTelemetryHTTPClient false w1) as [client w2|]; [|discriminate].
  change "STRIPE_CLI_TELEMETRY_OPTOUT" with optout_key.
  destruct (os_Getenv optout_key w2) as [optout w3|]; [|discriminate].
  injection Hg as -> -> ->.
  destruct (telemetryOptedOut (optout_value w)); [reflexivity|].
  change "https://r.stripe.com/0" with analytics_endpoint.
  destruct (url_Parse analytics_endpoint) as [u|err]; [|reflexivity].
  rewrite (query_Values_run e w gate_events 0 Hv).
  unfold uuid_NewString, bind, ret.
  destruct (rand_ready w 0 16) eqn:Hr;
    [rewrite (draw_0 w gate_events Hr)|rewrite (draw_fails w gate_events Hr); reflexivity].
  cbn [time_Now_Unix now world_after].
  fold (uuid_at w 0).
  change (url.Set_ _ "created" _) with
    (sent_form (pointee e w) (uuid_at w 0) eventName eventValue
               ((now w + 5 * time.Second) / time.Second)).
  cbv zeta. unfold http_NewRequest.
  destruct (http_NewRequest_check http.MethodPost (url_String u)) as [err|];
    [reflexivity|].
  cbn [http.set_Hdr http.Hdr http.Method http.URL http.Body http.ctx].
  set (data := sent_form _ _ _ _ _).
  match goal with
  | |- context [Request_WithContext ?r ctx] =>
      assert (Hreq : forall W,
                 match ctx with
                 | Some _ => Request_WithContext r ctx
                 | None => fun w0 => Returns r w0
                 end W = Returns (sent_request u ctx data) W)
        by (intros W; destruct ctx; reflexivity);
      rewrite Hreq; clear Hreq
  end.
  set (req := sent_request _ _ _).
  unfold Client_Do. fold (world_after w gate_events 16).
  rewrite Client_do_run, set_trace_world_after.
  destruct (client_run 9 req req) as [rs [resp [err|]]]; cbn [fst snd].
  - reflexivity.
  - unfold fmt_Printf, emit, bind. fold confirmation.
    rewrite set_trace_world_after, <- app_assoc. reflexivity.
Qed.

(** A receiver whose record is gone cannot arise in Go; the model panics
    where the form is filled in. *)
Lemma SendEvent_dangling (l : loc) (ctx : option context.Context)
      (eventName eventValue : string) (w : World) :
  heap w !! l = None ->
  SendEvent (Some l) ctx eventName eventValue w =
  if telemetryOptedOut (optout_value w)
  then Returns (None, None) (world_after w gate_events 0)
  else
    match url_Parse analytics_endpoint with
    | inr err => Returns (None, Some err) (world_after w gate_events 0)
    | inl u => Panics "invalid memory address or nil pointer dereference"
                      (world_after w gate_events 0)
    end.
Proof.
  intros Hl. pose proof (gate_run w) as Hg.
  unfold SendEvent, bind, ret in *.
  destruct (time_Sleep (5 * time.Second) w) as [[] w1|]; [|discriminate].
  destruct (newTelemetryHTTPClient false w1) as [client w2|]; [|discriminate].
  change "STRIPE_CLI_TELEMETRY_OPTOUT" with optout_key.
  destruct (os_Getenv optout_key w2) as [optout w3|]; [|discriminate].
  injection Hg as -> -> ->.
  destruct (telemetryOptedOut (optout_value w)); [reflexivity|].
  change "https://r.stripe.com/0" with analytics_endpoint.
  destruct (url_Parse analytics_endpoint) as [u|err]; [|reflexivity].
  unfold query_Values, bind, load. cbn [heap world_after]. rewrite Hl. reflexivity.
Qed.

Lemma valid_ptr_cases (e : ptr) (w : World) :
  valid_ptr e w \/ exists l, e = Some l /\ heap w !! l = None.
Proof.
  destruct e as [l|]; [|left; exact I].
  destruct (heap w !! l) as [c|] eqn:Hl.
  - left. cbn. rewrite Hl. eauto.
  - right. eauto.
Qed.

(** Whatever the receiver and the surroundings: the call ends in a world
    that differs from the first by the delay, by events that start with
    the three of the gate and hold no other sleep, and by random bytes
    used. *)
Lemma SendEvent_final (e : ptr) (ctx : option context.Context)
      (eventName eventValue : string) (w : World) :
  exists evs n,
    final_world (SendEvent e ctx eventName eventValue w)
    = world_after w (gate_events ++ evs) n
    /\ sleeps evs = [] /\ (length (round_trips evs) <= 10)%nat
    /\ (n = 0 \/ n = 16)%nat.
Proof.
  destruct (valid_ptr_cases e w) as [Hv|(l & -> & Hl)].
  - rewrite (SendEvent_run _ _ _ _ _ Hv).
    destruct (telemetryOptedOut (optout_value w)).
    { exists [], 0%nat. rewrite app_nil_r. cbn. auto with lia. }
    destruct (url_Parse analytics_endpoint) as [u|err].
    2:{ exists [], 0%nat. rewrite app_nil_r. cbn. auto with lia. }
    destruct (rand_ready w 0 16).
    2:{ exists [], 0%nat. rewrite app_nil_r. cbn. auto with lia. }
    cbv zeta.
    destruct (http_NewRequest_check http.MethodPost (url_String u)).
    { exists [], 16%nat. rewrite app_nil_r. cbn. auto with lia. }
    match goal with |- context [client_run 9 ?r ?r] => set (req := r) end.
    pose proof (proj1 (Client_Do_chain req)) as Hlen.
    destruct (client_run 9 req req).2.2.
    + exists (map EvRoundTrip (client_run 9 req req).1), 16%nat.
      rewrite sleeps_map, round_trips_map. repeat split; auto.
    + exists (map EvRoundTrip (client_run 9 req req).1 ++ [EvStdout confirmation])%list,
             16%nat.
      rewrite sleeps_app, round_trips_app, sleeps_map, round_trips_map.
      change (round_trips [EvStdout confirmation]) with (@nil http.Request).
      rewrite !app_nil_r. repeat split; auto.
  - rewrite (SendEvent_dangling _ _ _ _ _ Hl).
    destruct (telemetryOptedOut (optout_value w)).
    { exists [], 0%nat. rewrite app_nil_r. cbn. auto with lia. }
    destruct (url_Parse analytics_endpoint) as [u|err];
      exists [], 0%nat; rewrite app_nil_r; cbn; auto with lia.
Qed.

Lemma SendEvent_opted (e : ptr) (ctx : option context.Context)
      (eventName eventValue : string) (w : World) :
  telemetryOptedOut (optout_value w) = true ->
  SendEvent e ctx eventName eventValue w
  = Returns (None, None) (world_after w gate_events 0).
Proof.
  intros Hopt. destruct (valid_ptr_cases e w) as [Hv|(l & -> & Hl)].
  - rewrite (SendEvent_run _ _ _ _ _ Hv), Hopt. reflexivity.
  - rewrite (SendEvent_dangling _ _ _ _ _ Hl), Hopt. reflexivity.
Qed.

(** The sleeps of any call: one, of five seconds. *)
Lemma SendEvent_sleeps (e : ptr) (ctx : option context.Context)
      (eventName eventValue : string) (w : World) :
  sleeps (new_events w (final_world (SendEvent e ctx eventName eventValue w)))
  = [5 * time.Second].
Proof.
  destruct (SendEvent_final e ctx eventName eventValue w) as (evs & n & -> & Hs & _).
  rewrite new_events_world_after, sleeps_app, Hs. reflexivity.
Qed.

(** ** The opt-out gate and the failure paths *)

(** C1.  A call of [SendEvent] made while [STRIPE_CLI_TELEMETRY_OPTOUT]
    holds a value that [telemetryOptedOut] recognises sends nothing over
    the transport (no round trip is in its trace) and returns a nil
    response with a nil error.  It prints nothing, leaves the heap alone
    and reads no random byte. *)
Theorem SendEvent_opted_out_is_noop (e : ptr) (ctx : option context.Context)
        (eventName eventValue : string) (w : World) :
  telemetryOptedOut (optout_value w) = true ->
  exists w',
    SendEvent e ctx eventName eventValue w = Returns (None, None) w'
    /\ round_trips (new_events w w') = []
    /\ printed (new_events w w') = []
    /\ heap w' = heap w
    /\ rand_pos w' = rand_pos w.
Proof.
  intros Hopt. exists (world_after w gate_events 0).
  rewrite SendEvent_opted by exact Hopt.
  rewrite new_events_world_after. cbn.
  repeat split; auto using Nat.add_0_r.
Qed.

(** C2, as the code has it.  A call that is not opted out, on a nil or
    live receiver, sleeps once and goes one of five ways.  If parsing
    the endpoint fails, it returns a nil response with that error and
    sends nothing.  If the random source fails while the event
    identifier is made, it panics, having sent nothing.  If building the
    request fails, it returns a nil response with that error and sends
    nothing.  Otherwise it calls [Client.Do] once on the request it
    built: an error of [Client.Do] (always a [*url.Error] with operation
    [Post]) is returned with a nil response, and without an error the
    response of [Client.Do] is returned with a nil error.  Every
    request that went out is one of that call; they are at most ten, the
    first is the request built, and each further one follows a redirect
    answer to the one before, so nothing is sent again after a failure.
    A transport failure on the first request is returned wrapped, and an
    answer to it that the client does not follow is returned as it is;
    in both cases one request went out. *)
Theorem SendEvent_returns_every_failure (e : ptr) (ctx : option context.Context)
        (eventName eventValue : string) (w : World) :
  telemetryOptedOut (optout_value w) = false ->
  valid_ptr e w ->
  let o := SendEvent e ctx eventName eventValue w in
  let sent := round_trips (new_events w (final_world o)) in
  sleeps (new_events w (final_world o)) = [5 * time.Second]
  /\ match url_Parse analytics_endpoint with
     | inr err => o = Returns (None, Some err) (final_world o) /\ sent = []
     | inl u =>
         if rand_ready w 0 16 then
           match http_NewRequest_check http.MethodPost (url_String u) with
           | Some err => o = Returns (None, Some err) (final_world o) /\ sent = []
           | None =>
               let req :=
                 sent_request u ctx
                   (sent_form (pointee e w) (uuid_at w 0) eventName eventValue
                              ((now w + 5 * time.Second) / time.Second)) in
               let w1 := world_after w gate_events 16 in
               exists resp err w2,
                 Client_Do telemetry_client req w1 = Returns (resp, err) w2
                 /\ o = Returns match err with
                                | Some err => (None, Some err)
                                | None => (resp, None)
                                end (final_world o)
                 /\ sent = round_trips (new_events w1 w2)
                 /\ redirect_chain sent
                 /\ head sent = Some req
                 /\ (err = None ->
                     exists r final, resp = Some r /\ last sent = Some final
                                     /\ network final = inl r)
                 /\ (forall err', err = Some err' ->
                     exists url cause, err' = url_Error "Post" url cause)
                 /\ (forall cause, network req = inr cause ->
                     err = Some (url_Error "Post" (http.URL req) cause)
                     /\ sent = [req])
                 /\ (forall r, network req = inl r -> follows req r = false ->
                     resp = Some r /\ err = None /\ sent = [req])
           end
         else exists msg, o = Panics msg (final_world o) /\ sent = []
     end.
Proof.
  intros Hopt Hv. cbv zeta. split; [apply SendEvent_sleeps|].
  rewrite (SendEvent_run _ _ _ _ _ Hv), Hopt.
  destruct (url_Parse analytics_endpoint) as [u|err].
  2:{ cbn [final_world]. rewrite new_events_world_after. auto. }
  destruct (rand_ready w 0 16).
  2:{ eexists. cbn [final_world]. rewrite new_events_world_after. auto. }
  cbv zeta.
  destruct (http_NewRequest_check http.MethodPost (url_String u)) as [err|].
  { cbn [final_world]. rewrite new_events_world_after. auto. }
  set (req := sent_request _ _ _).
  unfold Client_Do. rewrite Client_do_run, set_trace_world_after.
  pose proof (Client_Do_chain req) as Hchain.
  destruct (client_run_first 9 req req) as [rest Hfirst].
  pose proof (client_run_ok 9 req req) as Hok.
  pose proof (client_run_wraps 9 req req) as Hwrap.
  pose proof (client_run_error 9 req req) as Herr.
  pose proof (client_run_answer 9 req req) as Hans.
  change (urlErrorOp (http.Method req)) with "Post" in *.
  destruct (client_run 9 req req) as [rs [resp err]]. cbn [fst snd] in *.
  assert (Hsent : round_trips
            (new_events w
               (final_world
                  match err with
                  | Some err0 =>
                      Returns (None (A:=http.Response), Some err0)
                              (world_after w (gate_events ++ map EvRoundTrip rs) 16)
                  | None =>
                      Returns (resp, None (A:=error))
                              (world_after w (gate_events ++ map EvRoundTrip rs
                                              ++ [EvStdout confirmation]) 16)
                  end)) = rs).
  { destruct err; cbn [final_world]; rewrite new_events_world_after;
      rewrite !round_trips_app, round_trips_map; cbn; auto using app_nil_r. }
  rewrite Hsent. exists resp, err, (world_after w (gate_events ++ map EvRoundTrip rs) 16).
  rewrite new_events_after, round_trips_map.
  split; [reflexivity|]. split; [destruct err; reflexivity|].
  split; [reflexivity|]. split; [exact Hchain|].
  split; [rewrite Hfirst; reflexivity|].
  split.
  { intros He. destruct (Hok He) as (r & final & ? & ? & ? & _). eauto. }
  split; [exact Hwrap|]. split.
  - intros cause Hc. specialize (Herr cause Hc). injection Herr as -> -> ->. auto.
  - intros r Hn Hf. specialize (Hans r Hn Hf). injection Hans as -> -> ->. auto.
Qed.


(** C6, as the code has it.  The pre-send delay is the constant five
    seconds written into [SendEvent]: on every call, whatever the
    receiver, the arguments, the environment and the rest of the world,
    the first thing the call does is sleep [5 * time.Second], it sleeps
    no second time, and the clock has moved by exactly that much when it
    ends. *)
Theorem SendEvent_delay_is_constant (e : ptr) (ctx : option context.Context)
        (eventName eventValue : string) (w : World) :
  let w' := final_world (SendEvent e ctx eventName eventValue w) in
  head (new_events w w') = Some (EvSleep (5 * time.Second))
  /\ sleeps (new_events w w') = [5 * time.Second]
  /\ now w' = now w + 5 * time.Second.
Proof.
  cbv zeta. split; [|split; [apply SendEvent_sleeps|]];
    destruct (SendEvent_final e ctx eventName eventValue w) as (evs & n & -> & _).
  - rewrite new_events_world_after. reflexivity.
  - reflexivity.
Qed.

(** C10.  On every call the trace starts with the five-second sleep,
    then the construction of the HTTP client, and only then the read of
    the opt-out variable.  A call that is opted out has done exactly
    these three things and let the full delay pass when it returns its
    nil response and nil error. *)
Theorem SendEvent_checks_opt_out_after_delay (e : ptr) (ctx : option context.Context)
        (eventName eventValue : string) (w : World) :
  let o := SendEvent e ctx eventName eventValue w in
  take 3 (new_events w (final_world o))
  = [EvSleep (5 * time.Second); EvNewClient telemetry_client;
     EvGetenv "STRIPE_CLI_TELEMETRY_OPTOUT"]
  /\ now (final_world o) = now w + 5 * time.Second
  /\ (telemetryOptedOut (optout_value w) = true ->
      exists w', o = Returns (None, None) w'
                 /\ new_events w w'
                    = [EvSleep (5 * time.Second); EvNewClient telemetry_client;
                       EvGetenv "STRIPE_CLI_TELEMETRY_OPTOUT"]).
Proof.
  cbv zeta. split; [|split].
  - destruct (SendEvent_final e ctx eventName eventValue w) as (evs & n & -> & _).
    rewrite new_events_world_after. reflexivity.
  - destruct (SendEvent_final e ctx eventName eventValue w) as (evs & n & -> & _).
    reflexivity.
  - intros Hopt. rewrite SendEvent_opted by exact Hopt.
    eexists. split; [reflexivity|]. apply new_events_world_after.
Qed.

(** ** The encoded form *)

Lemma append_cons (c : ascii) (a b : string) :
  String c a +:+ b = String c (a +:+ b).
Proof. reflexivity. Qed.

Lemma append_nil (b : string) : "" +:+ b = b.
Proof. reflexivity. Qed.

Lemma contains_app (c : ascii) (a b : string) :
  contains c (a +:+ b) = contains c a || contains c b.
Proof.
  induction a as [|x a IH]; [reflexivity|].
  rewrite append_cons. cbn [contains]. rewrite IH. apply orb_assoc.
Qed.

Lemma split_on_clean (sep : ascii) (x : string) :
  contains sep x = false -> split_on sep x = [x].
Proof.
  induction x as [|c x IH]; cbn; [reflexivity|].
  intros H. apply orb_false_elim in H as [Hc Hx].
  rewrite Hc, (IH Hx). reflexivity.
Qed.

Lemma split_on_cons (sep : ascii) (x rest : string) :
  contains sep x = false ->
  split_on sep (x +:+ String sep rest) = x :: split_on sep rest.
Proof.
  induction x as [|c x IH].
  - intros _. rewrite append_nil. cbn. rewrite Ascii.eqb_refl. reflexivity.
  - intros H. cbn in H. apply orb_false_elim in H as [Hc Hx].
    rewrite append_cons. cbn [split_on]. rewrite Hc, (IH Hx). reflexivity.
Qed.

(** Splitting what [strings.Join] made gives the pieces back, when no
    piece holds the separator. *)
Lemma split_on_Join (sep : ascii) (l : list string) :
  l <> [] ->
  Forall (fun x => contains sep x = false) l ->
  split_on sep (strings_Join l (String sep "")) = l.
Proof.
  induction l as [|x l IH]; [congruence|].
  intros _ Hall. inversion Hall as [|? ? Hx Hl]; subst.
  destruct l as [|y l].
  - cbn. apply split_on_clean, Hx.
  - change (strings_Join (x :: y :: l) (String sep ""))
      with (x +:+ String sep (strings_Join (y :: l) (String sep ""))).
    rewrite split_on_cons by exact Hx.
    rewrite IH by (congruence || exact Hl). reflexivity.
Qed.

Lemma upperhex_not_amp (n : Z) :
  Ascii.eqb (index_string url.upperhex n) "&" = false.
Proof.
  unfold index_string. generalize (Z.to_nat n) as k. intros k.
  do 17 (destruct k as [|k]; [reflexivity|]). reflexivity.
Qed.

Lemma shouldEscape_amp (c : ascii) :
  url.shouldEscape c = false -> Ascii.eqb c "&" = false.
Proof.
  intros H. destruct (Ascii.eqb c "&") eqn:E; [|reflexivity].
  apply Ascii.eqb_eq in E. subst c. discriminate H.
Qed.

(** An escaped string holds no ampersand. *)
Lemma QueryEscape_no_amp (s : string) :
  contains "&" (url.QueryEscape s) = false.
Proof.
  induction s as [|c s IH]; [reflexivity|].
  cbn [url.QueryEscape].
  destruct (url.shouldEscape c) eqn:Hesc.
  - destruct (Ascii.eqb c " "); cbn [contains].
    + rewrite IH. reflexivity.
    + rewrite !upperhex_not_amp, IH. reflexivity.
  - cbn [contains]. rewrite (shouldEscape_amp c Hesc), IH. reflexivity.
Qed.

Lemma pairs_no_amp (v : url.Values) :
  Forall (fun x => contains "&" x = false) (url.pairs v).
Proof.
  apply List.Forall_forall. intros x Hx. unfold url.pairs in Hx.
  apply in_flat_map in Hx as (k & _ & Hx).
  apply in_map_iff in Hx as (y & <- & _).
  rewrite !contains_app, !QueryEscape_no_amp. reflexivity.
Qed.




(** ** Identifiers *)

Lemma small_cases (P : Z -> Prop) (bound : nat) (n : Z) :
  0 <= n < Z.of_nat bound ->
  (forall k : nat, (k < bound)%nat -> P (Z.of_nat k)) -> P n.
Proof.
  intros Hn HP. rewrite <- (Z2Nat.id n) by lia. apply HP. lia.
Qed.

Ltac each_nat k :=
  first [ lia
        | destruct k as [|k];
          [first [reflexivity | vm_compute; intuition congruence]
          | each_nat k] ].

Ltac by_cases n bound :=
  pattern n; apply (small_cases _ bound); [cbn; lia|];
  let k := fresh "k" in let Hk := fresh "Hk" in
  intros k Hk; each_nat k.

Lemma hextable_digit (n : Z) :
  0 <= n < 16 -> uuid.is_hex_digit (index_string hex.hextable n) = true.
Proof. intros Hn. by_cases n 16%nat. Qed.

Lemma fromHexChar_hextable (n : Z) :
  0 <= n < 16 -> hex.fromHexChar (index_string hex.hextable n) = n.
Proof. intros Hn. by_cases n 16%nat. Qed.

Lemma hi_nibble (b : Z) : is_byte b -> 0 <= Z.shiftr b 4 < 16.
Proof.
  unfold is_byte. intros Hb. rewrite Z.shiftr_div_pow2 by lia.
  change (2 ^ 4) with 16. split.
  - apply Z.div_pos; lia.
  - apply Z.div_lt_upper_bound; lia.
Qed.

Lemma lo_nibble (b : Z) : 0 <= Z.land b 15 < 16.
Proof.
  change 15 with (Z.ones 4). rewrite Z.land_ones by lia.
  apply Z.mod_pos_bound. reflexivity.
Qed.

Lemma byte_nibbles (b : Z) :
  is_byte b -> b = 16 * Z.shiftr b 4 + Z.land b 15.
Proof.
  unfold is_byte. intros Hb. rewrite Z.shiftr_div_pow2 by lia.
  change 15 with (Z.ones 4). rewrite Z.land_ones by lia.
  change (2 ^ 4) with 16. apply Z.div_mod. lia.
Qed.

(** A byte is known by its two digits. *)
Lemma hex_byte_inj (a b : Z) :
  is_byte a -> is_byte b ->
  index_string hex.hextable (Z.shiftr a 4)
  = index_string hex.hextable (Z.shiftr b 4) ->
  index_string hex.hextable (Z.land a 15)
  = index_string hex.hextable (Z.land b 15) ->
  a = b.
Proof.
  intros Ha Hb Hhi Hlo.
  apply (f_equal hex.fromHexChar) in Hhi, Hlo.
  rewrite !fromHexChar_hextable in Hhi, Hlo
    by (apply hi_nibble || apply lo_nibble; assumption).
  rewrite (byte_nibbles a Ha), (byte_nibbles b Hb). lia.
Qed.

Lemma version_byte (b : Z) :
  let v := Z.lor (Z.land b 15) 64 in
  is_byte v /\ Z.shiftr v 4 = 4.
Proof.
  cbv zeta. pose proof (lo_nibble b) as Hk.
  generalize dependent (Z.land b 15). intros k Hk.
  unfold is_byte. by_cases k 16%nat.
Qed.

Lemma variant_byte (b : Z) :
  let v := Z.lor (Z.land b 63) 128 in
  is_byte v /\ (Z.shiftr v 4 = 8 \/ Z.shiftr v 4 = 9
                \/ Z.shiftr v 4 = 10 \/ Z.shiftr v 4 = 11).
Proof.
  cbv zeta.
  assert (Hk : 0 <= Z.land b 63 < 64).
  { change 63 with (Z.ones 6). rewrite Z.land_ones by lia.
    apply Z.mod_pos_bound. reflexivity. }
  generalize dependent (Z.land b 63). intros k Hk.
  unfold is_byte. by_cases k 64%nat.
Qed.

Lemma draw_length (w : World) (k : nat) : length (draw w k) = 16%nat.
Proof. reflexivity. Qed.

Lemma draw_bytes (w : World) (k : nat) : Forall is_byte (draw w k).
Proof.
  unfold draw. apply Forall_map, Forall_forall. intros i _.
  unfold is_byte. cbn. apply Z.mod_pos_bound. reflexivity.
Qed.

Lemma sixteen_bytes (raw : list Z) :
  length raw = 16%nat ->
  exists b0 b1 b2 b3 b4 b5 b6 b7 b8 b9 b10 b11 b12 b13 b14 b15,
    raw = [b0; b1; b2; b3; b4; b5; b6; b7; b8; b9; b10; b11; b12; b13; b14; b15].
Proof.
  intros Hlen.
  do 16 (destruct raw as [|? raw]; [discriminate Hlen|]).
  destruct raw; [|discriminate Hlen]. repeat eexists.
Qed.

Ltac sixteen raw Hlen :=
  destruct (sixteen_bytes raw Hlen)
    as (b0 & b1 & b2 & b3 & b4 & b5 & b6 & b7 & b8 & b9 & b10 & b11 & b12
        & b13 & b14 & b15 & ->);
  clear Hlen.

Ltac all_bytes H :=
  repeat match type of H with
         | Forall _ (_ :: _) =>
             let Hb := fresh "Hb" in
             apply Forall_cons_1 in H as [Hb H]
         end;
  clear H.

Lemma stamp_length (raw : list Z) : length (uuid.stamp raw) = length raw.
Proof. unfold uuid.stamp. rewrite !length_alter. reflexivity. Qed.

Lemma stamp_bytes (raw : list Z) :
  Forall is_byte raw -> Forall is_byte (uuid.stamp raw).
Proof.
  intros Hall. unfold uuid.stamp.
  apply Forall_alter; [apply Forall_alter; [exact Hall|]|]; intros b _ _.
  - apply (version_byte b).
  - apply (variant_byte b).
Qed.

(** A printed identifier is never the empty string. *)
Lemma String_nonempty (u : uuid.UUID) : uuid.String u <> "".
Proof.
  unfold uuid.String.
  destruct (hex.Encode (take 4 u)) as [|c s]; discriminate.
Qed.

(** What [uuid.NewString] returns has the version-4 form. *)
Lemma String_stamp_v4 (raw : list Z) :
  length raw = 16%nat -> Forall is_byte raw ->
  uuid.is_v4_string (uuid.String (uuid.stamp raw)) = true.
Proof.
  intros Hlen Hall. sixteen raw Hlen. all_bytes Hall.
  cbn [uuid.stamp alter list_alter].
  destruct (version_byte b6) as [_ Hver].
  destruct (variant_byte b8) as [Hvb Hvar].
  repeat match goal with
         | Hb : is_byte ?b |- _ =>
             pose proof (hextable_digit _ (hi_nibble b Hb));
             pose proof (hextable_digit _ (lo_nibble b));
             clear Hb
         end.
  pose proof (hextable_digit _ (lo_nibble (Z.lor (Z.land b6 15) 64))).
  pose proof (hextable_digit _ (lo_nibble (Z.lor (Z.land b8 63) 128))).
  lazy beta iota zeta delta
       [uuid.String hex.Encode take drop firstn skipn String.append].
  rewrite Hver.
  change (index_string hex.hextable 4) with "4"%char.
  assert (Hv : exists c, index_string hex.hextable
                           (Z.shiftr (Z.lor (Z.land b8 63) 128) 4) = c
                         /\ (c = "8" \/ c = "9" \/ c = "a" \/ c = "b")%char).
  { destruct Hvar as [-> | [-> | [-> | ->]]]; eexists; (split; [reflexivity|]); auto. }
  destruct Hv as (cv & -> & Hcv).
  repeat match goal with
         | H : uuid.is_hex_digit (index_string hex.hextable ?z) = true |- _ =>
             generalize dependent (index_string hex.hextable z); intros
         end.
  unfold uuid.is_v4_string. cbn [String.length Nat.eqb andb uuid.shape_from].
  destruct Hcv as [-> | [-> | [-> | ->]]]; cbn;
    repeat match goal with
           | H : uuid.is_hex_digit _ = true |- _ => rewrite H; clear H
           end; reflexivity.
Qed.

(** Two sixteen-byte values that print alike are the same. *)
Lemma String_inj (u1 u2 : list Z) :
  length u1 = 16%nat -> length u2 = 16%nat ->
  Forall is_byte u1 -> Forall is_byte u2 ->
  uuid.String u1 = uuid.String u2 -> u1 = u2.
Proof.
  intros Hl1 Hl2 Hb1 Hb2 Heq.
  destruct (sixteen_bytes u1 Hl1)
    as (? & ? & ? & ? & ? & ? & ? & ? & ? & ? & ? & ? & ? & ? & ? & ? & ->).
  destruct (sixteen_bytes u2 Hl2)
    as (? & ? & ? & ? & ? & ? & ? & ? & ? & ? & ? & ? & ? & ? & ? & ? & ->).
  all_bytes Hb1. all_bytes Hb2.
  lazy beta iota zeta delta
       [uuid.String hex.Encode take drop firstn skipn String.append] in Heq.
  injection Heq. clear Heq. intros.
  repeat (f_equal; [apply hex_byte_inj; assumption|]).
  f_equal. apply hex_byte_inj; assumption.
Qed.

(** Two identifiers differ exactly when the draws they were made from
    differ after stamping. *)
Lemma uuid_at_differ (w1 w2 : World) (k1 k2 : nat) :
  uuid_at w1 k1 <> uuid_at w2 k2
  <-> uuid.stamp (draw w1 k1) <> uuid.stamp (draw w2 k2).
Proof.
  split.
  - intros Hne Heq. apply Hne. unfold uuid_at. rewrite Heq. reflexivity.
  - intros Hne Heq. apply Hne. unfold uuid_at in Heq.
    apply String_inj; try exact Heq;
      rewrite ?stamp_length; auto using draw_length, stamp_bytes, draw_bytes.
Qed.

Lemma uuid_at_v4 (w : World) (k : nat) :
  uuid.is_v4_string (uuid_at w k) = true.
Proof. apply String_stamp_v4; [apply draw_length|apply draw_bytes]. Qed.

Lemma uuid_NewString_run (w : World) :
  rand_ready w 0 16 = true ->
  uuid_NewString w = Returns (uuid_at w 0) (set_rand_pos (rand_pos w + 16) w).
Proof.
  intros Hr. unfold uuid_NewString, bind, ret, rand_Read, uuid_at, draw.
  rewrite Hr. do 3 f_equal. apply map_ext. intros i. rewrite Nat.add_0_r. reflexivity.
Qed.

(** Without random bytes [uuid.NewString] panics and reads nothing. *)
Lemma uuid_NewString_fails (w : World) :
  rand_ready w 0 16 = false ->
  uuid_NewString w = Panics "crypto/rand: read failed" w.
Proof.
  intros Hr. unfold uuid_NewString, bind, rand_Read. rewrite Hr. reflexivity.
Qed.

Lemma rand_ready_shift (w w' : World) (k n : nat) :
  rand_reader w' = rand_reader w -> rand_pos w' = (rand_pos w + k)%nat ->
  rand_ready w' 0 n = rand_ready w k n.
Proof.
  intros Hr Hp. unfold rand_ready. rewrite Hr, Hp, Nat.add_0_r. reflexivity.
Qed.

Lemma rand_ready_next (w : World) :
  rand_ready (set_rand_pos (rand_pos w + 16) w) 0 16 = rand_ready w 16 16.
Proof.
  unfold rand_ready. cbn [rand_reader rand_pos set_rand_pos].
  rewrite Nat.add_0_r. reflexivity.
Qed.

(** The second of two reads in a row sees the bytes sixteen further on. *)
Lemma uuid_at_next (w : World) :
  uuid_at (set_rand_pos (rand_pos w + 16) w) 0 = uuid_at w 16.
Proof.
  unfold uuid_at, draw. cbn [rand_reader rand_pos set_rand_pos].
  do 2 f_equal. apply map_ext. intros i. rewrite Nat.add_0_r. reflexivity.
Qed.

(** ** Decimal numerals *)

(** What [fmt.Sprint] prints of an integer reads back as that integer. *)
Lemma fmt_Sprint_reads_back (n : Z) :
  option_map Z.of_int (NilZero.int_of_string (fmt_Sprint n)) = Some n.
Proof.
  unfold fmt_Sprint. rewrite NilZero.isi.
  - cbn. f_equal. apply DecimalZ.of_to.
  - destruct n; cbn; try discriminate.
    intros [= H]. exact (DecimalPos.Unsigned.to_uint_nonnil _ H).
  - destruct n; cbn; try discriminate.
    intros [= H]. exact (DecimalPos.Unsigned.to_uint_nonnil _ H).
Qed.

(** ** What the form holds *)

Lemma Add_fresh (v : url.Values) (k x : string) :
  v !! k = None -> url.Add v k x = <[k := [x]]> v.
Proof. intros H. unfold url.Add. rewrite H. reflexivity. Qed.

Ltac string_ne := intros ?; discriminate.

Ltac lookups :=
  repeat first
    [ rewrite lookup_insert_eq
    | rewrite lookup_insert_ne by string_ne
    | rewrite lookup_empty ].

(** The struct as [query.Values] renders it: nine keys, one value each. *)
Lemma reflectValue_inserts (c : CLIAnalyticsEventContext) :
  query.reflectValue c =
  <["livemode" := [query.FormatBool (LiveMode c)]]>
  (<["request_id" := [RequestID c]]>
  (<["generated_resource" := [query.FormatBool (GeneratedResource c)]]>
  (<["os" := [OS c]]>
  (<["cli_version" := [CLIVersion c]]>
  (<["merchant" := [Merchant c]]>
  (<["command_path" := [CommandPath c]]>
  (<["invocation_id" := [InvocationID c]]>
  (<["user_agent" := [UserAgent c]]> ∅)))))))).
Proof.
  unfold query.reflectValue. cbv zeta.
  repeat (rewrite Add_fresh by (lookups; reflexivity)).
  reflexivity.
Qed.

Lemma sent_form_keys (c : CLIAnalyticsEventContext)
      (id eventName eventValue : string) (unix : Z) :
  url.sorted_keys (sent_form (Some c) id eventName eventValue unix) = form_keys.
Proof.
  unfold url.sorted_keys, sent_form, url.Set_. cbv zeta.
  rewrite reflectValue_inserts, !dom_insert_L, dom_empty_L.
  vm_compute. reflexivity.
Qed.

(** The pieces of the form [SendEvent] encodes for a live receiver, in
    the order [Values.Encode] writes them. *)
Lemma sent_form_pairs (c : CLIAnalyticsEventContext)
      (id eventName eventValue : string) (unix : Z) :
  url.pairs (sent_form (Some c) id eventName eventValue unix) =
  [ "cli_version=" +:+ url.QueryEscape (CLIVersion c);
    "client_id=stripe-cli";
    "command_path=" +:+ url.QueryEscape (CommandPath c);
    "created=" +:+ url.QueryEscape (fmt_Sprint unix);
    "event_id=" +:+ url.QueryEscape id;
    "event_name=" +:+ url.QueryEscape eventName;
    "event_value=" +:+ url.QueryEscape eventValue;
    "generated_resource=" +:+ url.QueryEscape (query.FormatBool (GeneratedResource c));
    "invocation_id=" +:+ url.QueryEscape (InvocationID c);
    "livemode=" +:+ url.QueryEscape (query.FormatBool (LiveMode c));
    "merchant=" +:+ url.QueryEscape (Merchant c);
    "os=" +:+ url.QueryEscape (OS c);
    "request_id=" +:+ url.QueryEscape (RequestID c);
    "user_agent=" +:+ url.QueryEscape (UserAgent c) ].
Proof.
  unfold url.pairs. rewrite sent_form_keys.
  unfold form_keys, sent_form, url.Set_. cbv zeta.
  rewrite reflectValue_inserts.
  cbn [flat_map]. lookups. reflexivity.
Qed.

Lemma sent_form_body (c : CLIAnalyticsEventContext)
      (id eventName eventValue : string) (unix : Z) :
  split_on "&" (url.Encode (sent_form (Some c) id eventName eventValue unix))
  = url.pairs (sent_form (Some c) id eventName eventValue unix).
Proof.
  unfold url.Encode. apply split_on_Join; [|apply pairs_no_amp].
  rewrite sent_form_pairs. discriminate.
Qed.

(** ** The request that goes out *)




(** ** The setters *)

Lemma store_run (l : loc) (c : CLIAnalyticsEventContext)
      (f : CLIAnalyticsEventContext -> CLIAnalyticsEventContext) (w : World) :
  heap w !! l = Some c ->
  store (Some l) f w = Returns tt (set_heap (<[l := f c]> (heap w)) w).
Proof. intros H. unfold store, bind, load. rewrite H. reflexivity. Qed.

Lemma set_heap_twice (h1 h2 : gmap loc CLIAnalyticsEventContext) (w : World) :
  set_heap h2 (set_heap h1 w) = set_heap h2 w.
Proof. reflexivity. Qed.

Lemma set_heap_same (l : loc) (c : CLIAnalyticsEventContext) (w : World) :
  heap w !! l = Some c -> set_heap (<[l := c]> (heap w)) w = w.
Proof. intros H. rewrite insert_id by exact H. destruct w; reflexivity. Qed.

(** The loop over the annotations: the flag is raised if a value is
    [operation] and otherwise left as it was. *)
Lemma mark_loop (l : loc) (xs : list (string * string)) :
  forall (c : CLIAnalyticsEventContext) (w : World),
    heap w !! l = Some c ->
    for_range xs
      (fun '(_, value) =>
         if String.eqb value "operation"
         then store (Some l) (set_GeneratedResource true)
         else ret tt) w
    = Returns tt
        (set_heap
           (<[l := if existsb (fun kv => String.eqb (snd kv) "operation") xs
                   then set_GeneratedResource true c else c]> (heap w)) w).
Proof.
  induction xs as [|[k v] xs IH]; intros c w Hc.
  - cbn. rewrite set_heap_same by exact Hc. reflexivity.
  - cbn [for_range existsb snd]. unfold bind at 1.
    destruct (String.eqb v "operation").
    + rewrite (store_run l c _ w Hc).
      rewrite (IH (set_GeneratedResource true c)) by apply lookup_insert_eq.
      cbn [heap set_heap orb]. rewrite insert_insert_eq.
      destruct (existsb _ xs); reflexivity.
    + unfold ret at 1. rewrite (IH c w Hc). reflexivity.
Qed.

Lemma SetCommandContext_run (l : loc) (c : CLIAnalyticsEventContext)
      (cmd : cobra.Command) (w : World) :
  heap w !! l = Some c ->
  SetCommandContext (Some l) cmd w
  = Returns tt
      (set_heap (<[l := set_GeneratedResource (is_generated cmd)
                           (set_CommandPath (cobra.CommandPath cmd) c)]> (heap w)) w).
Proof.
  intros Hc. unfold SetCommandContext, bind.
  rewrite (store_run l c _ w Hc).
  rewrite (store_run l (set_CommandPath (cobra.CommandPath cmd) c))
    by apply lookup_insert_eq.
  cbn [heap set_heap]. rewrite insert_insert_eq.
  rewrite (mark_loop l _ (set_GeneratedResource false
                            (set_CommandPath (cobra.CommandPath cmd) c)))
    by apply lookup_insert_eq.
  cbn [heap set_heap]. rewrite insert_insert_eq.
  unfold is_generated. destruct (existsb _ _); reflexivity.
Qed.

Lemma is_generated_spec (cmd : cobra.Command) :
  is_generated cmd = true
  <-> exists k, cobra.Annotations cmd !! k = Some "operation".
Proof.
  unfold is_generated. rewrite existsb_exists. split.
  - intros ([k v] & Hin & Hv). cbn in Hv. apply String.eqb_eq in Hv. subst v.
    exists k. apply elem_of_map_to_list, list_elem_of_In, Hin.
  - intros (k & Hk). exists (k, "operation"). split.
    + apply list_elem_of_In, elem_of_map_to_list, Hk.
    + reflexivity.
Qed.

(** C7.  On a live record, [SetCommandContext] stores the command's full
    path in [CommandPath], sets [GeneratedResource] to true exactly when
    some annotation of the command has the value [operation], and
    changes no other field and nothing else in the world.  Binding a
    second command afterwards leaves the record as binding the second
    alone does: path and flag are both overwritten. *)
Theorem SetCommandContext_binds (l : loc) (c : CLIAnalyticsEventContext)
        (cmd : cobra.Command) (w : World) :
  heap w !! l = Some c ->
  exists c',
    SetCommandContext (Some l) cmd w
    = Returns tt (set_heap (<[l := c']> (heap w)) w)
    /\ CommandPath c' = cobra.CommandPath cmd
    /\ (GeneratedResource c' = true
        <-> exists k, cobra.Annotations cmd !! k = Some "operation")
    /\ UserAgent c' = UserAgent c
    /\ InvocationID c' = InvocationID c
    /\ Merchant c' = Merchant c
    /\ CLIVersion c' = CLIVersion c
    /\ OS c' = OS c
    /\ RequestID c' = RequestID c
    /\ LiveMode c' = LiveMode c
    /\ (forall cmd2,
           (run SetCommandContext (Some l) cmd;
            SetCommandContext (Some l) cmd2) w
           = SetCommandContext (Some l) cmd2 w)
    /\ (run SetCommandContext (Some l) cmd;
        SetCommandContext (Some l) cmd) w
       = SetCommandContext (Some l) cmd w.
Proof.
  intros Hc.
  assert (Hagain : forall cmd2,
    (run SetCommandContext (Some l) cmd; SetCommandContext (Some l) cmd2) w
    = SetCommandContext (Some l) cmd2 w).
  { intros cmd2. unfold bind at 1. rewrite (SetCommandContext_run l c cmd w Hc).
    rewrite (SetCommandContext_run l _ cmd2 _ (lookup_insert_eq _ _ _)).
    rewrite (SetCommandContext_run l c cmd2 w Hc).
    cbn [heap set_heap]. rewrite insert_insert_eq. reflexivity. }
  eexists. split; [apply (SetCommandContext_run l c cmd w Hc)|].
  cbn. split; [reflexivity|]. split; [apply is_generated_spec|].
  repeat (split; [reflexivity|]). split; [exact Hagain|apply Hagain].
Qed.

Lemma SetInvocationID_run (l : loc) (c : CLIAnalyticsEventContext) (w : World) :
  heap w !! l = Some c ->
  rand_ready w 0 16 = true ->
  SetInvocationID (Some l) w
  = Returns tt (set_heap (<[l := set_InvocationID (uuid_at w 0) c]> (heap w))
                         (set_rand_pos (rand_pos w + 16) w)).
Proof.
  intros Hc Hr. unfold SetInvocationID, bind. rewrite uuid_NewString_run by exact Hr.
  rewrite (store_run l c) by exact Hc. reflexivity.
Qed.

(** When the random source fails, the panic of [uuid.NewString] comes
    before the assignment. *)
Lemma SetInvocationID_fails (e : ptr) (w : World) :
  rand_ready w 0 16 = false ->
  SetInvocationID e w = Panics "crypto/rand: read failed" w.
Proof.
  intros Hr. unfold SetInvocationID, bind. rewrite uuid_NewString_fails by exact Hr.
  reflexivity.
Qed.

Lemma uuid_at_shift (w w' : World) (k : nat) :
  rand_reader w' = rand_reader w -> rand_pos w' = (rand_pos w + k)%nat ->
  uuid_at w' 0 = uuid_at w k.
Proof.
  intros Hr Hp. unfold uuid_at, draw. rewrite Hr, Hp.
  do 2 f_equal. apply map_ext. intros i. rewrite Nat.add_0_r. reflexivity.
Qed.

Lemma SetInvocationID_again (l : loc) (c : CLIAnalyticsEventContext) (w : World) :
  heap w !! l = Some c ->
  rand_ready w 16 16 = true ->
  SetInvocationID (Some l)
    (set_heap (<[l := set_InvocationID (uuid_at w 0) c]> (heap w))
              (set_rand_pos (rand_pos w + 16) w))
  = Returns tt (set_heap (<[l := set_InvocationID (uuid_at w 16) c]> (heap w))
                         (set_rand_pos (rand_pos w + 32) w)).
Proof.
  intros Hc Hr.
  rewrite (SetInvocationID_run l (set_InvocationID (uuid_at w 0) c)).
  2: apply lookup_insert_eq.
  2: exact (eq_trans (rand_ready_next w) Hr).
  rewrite (uuid_at_shift w _ 16) by reflexivity.
  cbn [heap set_heap set_rand_pos rand_pos]. rewrite insert_insert_eq.
  replace (rand_pos w + 16 + 16)%nat with (rand_pos w + 32)%nat by lia.
  reflexivity.
Qed.

(** C8, as the code has it.  On a live record, a call of
    [SetInvocationID] for which the random source delivers stores in
    [InvocationID] the identifier made from the next sixteen unread
    bytes of the source and changes no other field; the identifier is
    not empty and has the version-4 form.  A second call does not reuse
    the first value: it stores the identifier of the sixteen bytes after
    those, and the two values differ exactly when the two draws differ
    after stamping.  A call for which the random source fails panics
    and stores nothing. *)
Theorem SetInvocationID_fresh (l : loc) (c : CLIAnalyticsEventContext) (w : World) :
  heap w !! l = Some c ->
  (rand_ready w 0 16 = false ->
   exists msg, SetInvocationID (Some l) w = Panics msg w)
  /\ (rand_ready w 0 16 = true ->
      exists w1 c1,
        SetInvocationID (Some l) w = Returns tt w1
        /\ heap w1 !! l = Some c1
        /\ InvocationID c1 = uuid_at w 0
        /\ InvocationID c1 <> ""
        /\ uuid.is_v4_string (InvocationID c1) = true
        /\ UserAgent c1 = UserAgent c
        /\ CommandPath c1 = CommandPath c
        /\ Merchant c1 = Merchant c
        /\ CLIVersion c1 = CLIVersion c
        /\ OS c1 = OS c
        /\ GeneratedResource c1 = GeneratedResource c
        /\ RequestID c1 = RequestID c
        /\ LiveMode c1 = LiveMode c
        /\ rand_pos w1 = (rand_pos w + 16)%nat
        /\ (rand_ready w 16 16 = true ->
            exists w2 c2,
              SetInvocationID (Some l) w1 = Returns tt w2
              /\ heap w2 !! l = Some c2
              /\ InvocationID c2 = uuid_at w 16
              /\ InvocationID c2 <> ""
              /\ uuid.is_v4_string (InvocationID c2) = true
              /\ UserAgent c2 = UserAgent c
              /\ CommandPath c2 = CommandPath c
              /\ Merchant c2 = Merchant c
              /\ CLIVersion c2 = CLIVersion c
              /\ OS c2 = OS c
              /\ GeneratedResource c2 = GeneratedResource c
              /\ RequestID c2 = RequestID c
              /\ LiveMode c2 = LiveMode c
              /\ rand_pos w2 = (rand_pos w + 32)%nat
              /\ (InvocationID c1 <> InvocationID c2
                  <-> uuid.stamp (draw w 0) <> uuid.stamp (draw w 16)))).
Proof.
  intros Hc. split.
  { intros Hr. eexists. apply SetInvocationID_fails, Hr. }
  intros Hr.
  exists (set_heap (<[l := set_InvocationID (uuid_at w 0) c]> (heap w))
                   (set_rand_pos (rand_pos w + 16) w)),
         (set_InvocationID (uuid_at w 0) c).
  split; [apply (SetInvocationID_run l c w Hc Hr)|].
  split; [apply lookup_insert_eq|].
  cbn [InvocationID UserAgent CommandPath Merchant CLIVersion OS GeneratedResource
       RequestID LiveMode set_InvocationID].
  split; [reflexivity|].
  split; [apply String_nonempty|]. split; [apply uuid_at_v4|].
  do 9 (split; [reflexivity|]).
  intros Hr2.
  exists (set_heap (<[l := set_InvocationID (uuid_at w 16) c]> (heap w))
                   (set_rand_pos (rand_pos w + 32) w)),
         (set_InvocationID (uuid_at w 16) c).
  split; [apply (SetInvocationID_again l c w Hc Hr2)|].
  split; [apply lookup_insert_eq|].
  cbn [InvocationID UserAgent CommandPath Merchant CLIVersion OS GeneratedResource
       RequestID LiveMode set_InvocationID].
  split; [reflexivity|].
  split; [apply String_nonempty|]. split; [apply uuid_at_v4|].
  do 9 (split; [reflexivity|]).
  apply uuid_at_differ.
Qed.

(** ** The singleton *)

Lemma later_refl (w : World) : later w w.
Proof. unfold later. auto. Qed.

Lemma later_trans (w1 w2 w3 : World) : later w1 w2 -> later w2 w3 -> later w1 w3.
Proof.
  unfold later. intros (-> & -> & H1) (-> & -> & H2).
  repeat split; auto. set_solver.
Qed.

(** A field written through a pointer, both setters and [SendEvent] are
    such later states. *)
Lemma later_store (e : ptr) (f : CLIAnalyticsEventContext -> CLIAnalyticsEventContext)
      (w : World) :
  later w (final_world (store e f w)).
Proof.
  unfold store, bind, load. destruct e as [l|]; [|apply later_refl].
  destruct (heap w !! l) as [c|] eqn:Hl; [|apply later_refl].
  cbn. unfold later. cbn. repeat split; auto.
  rewrite dom_insert_L. set_solver.
Qed.

Lemma later_SetCommandContext (l : loc) (c : CLIAnalyticsEventContext)
      (cmd : cobra.Command) (w : World) :
  heap w !! l = Some c ->
  later w (final_world (SetCommandContext (Some l) cmd w)).
Proof.
  intros Hc. rewrite (SetCommandContext_run l c cmd w Hc).
  unfold later. cbn. repeat split; auto. rewrite dom_insert_L. set_solver.
Qed.

Lemma later_SetInvocationID (l : loc) (c : CLIAnalyticsEventContext) (w : World) :
  heap w !! l = Some c ->
  later w (final_world (SetInvocationID (Some l) w)).
Proof.
  intros Hc. destruct (rand_ready w 0 16) eqn:Hr.
  - rewrite (SetInvocationID_run l c w Hc Hr).
    unfold later. cbn. repeat split; auto. rewrite dom_insert_L. set_solver.
  - rewrite (SetInvocationID_fails _ w Hr). apply later_refl.
Qed.

Lemma later_SendEvent (e : ptr) (ctx : option context.Context)
      (eventName eventValue : string) (w : World) :
  later w (final_world (SendEvent e ctx eventName eventValue w)).
Proof.
  destruct (SendEvent_final e ctx eventName eventValue w) as (evs & n & -> & _).
  unfold later. cbn. auto.
Qed.

Lemma singleton_inv_start (env : gmap string string) (rnd : nat -> Z) (t : Z) :
  singleton_inv (start env rnd t).
Proof. reflexivity. Qed.

Lemma singleton_inv_later (w w' : World) :
  singleton_inv w -> later w w' -> singleton_inv w'.
Proof.
  unfold singleton_inv, later. intros Hinv (Hi & Hs & Hdom).
  rewrite Hs, Hi. destruct (telemetrySync w); [|exact Hinv].
  destruct Hinv as (l & Hl & Hlive). exists l. split; [exact Hl|].
  apply elem_of_dom, Hdom, elem_of_dom, Hlive.
Qed.

(** The first call: the guard is open, a zero record is allocated at a
    fresh address and published. *)
Lemma GetAnalyticsEventContext_first (w : World) :
  telemetrySync w = false ->
  let l := fresh (dom (heap w)) in
  GetAnalyticsEventContext w
  = Returns (Some l)
      (set_telemetrySync true
         (set_telemetryInstance (Some l)
            (set_heap (<[l := zero_context]> (heap w)) w))).
Proof.
  intros Hs. unfold GetAnalyticsEventContext, bind, telemetrySync_Do.
  rewrite Hs. reflexivity.
Qed.

(** Every call after it: the guard is shut, the world is left alone. *)
Lemma GetAnalyticsEventContext_again (w : World) :
  telemetrySync w = true ->
  GetAnalyticsEventContext w = Returns (telemetryInstance w) w.
Proof.
  intros Hs. unfold GetAnalyticsEventContext, bind, telemetrySync_Do.
  rewrite Hs. reflexivity.
Qed.

(** C9.  Started in a state the package itself can produce,
    [GetAnalyticsEventContext] returns a non-nil pointer and cannot
    fail.  A call that finds the guard open allocates a zero-valued
    record at a fresh address and shuts the guard; a call that finds it
    shut changes nothing.  So from the first call on, in every later
    state, each call returns that same pointer and allocates no more,
    and a field written through the pointer from one call is read back
    through the pointer from another. *)
Theorem GetAnalyticsEventContext_singleton (w : World) :
  singleton_inv w ->
  exists l w1,
    GetAnalyticsEventContext w = Returns (Some l) w1
    /\ singleton_inv w1
    /\ telemetrySync w1 = true
    /\ (telemetrySync w = false ->
        heap w !! l = None /\ heap w1 = <[l := zero_context]> (heap w))
    /\ (telemetrySync w = true -> w1 = w)
    /\ (forall w2, later w1 w2 ->
                   GetAnalyticsEventContext w2 = Returns (Some l) w2)
    /\ (forall w2 c f,
           later w1 w2 -> heap w2 !! l = Some c ->
           (do p1 <- GetAnalyticsEventContext;
            do p2 <- GetAnalyticsEventContext;
            run store p1 f;
            load p2) w2
           = Returns (f c) (set_heap (<[l := f c]> (heap w2)) w2)).
Proof.
  intros Hinv. unfold singleton_inv in Hinv.
  assert (Hlater : forall l w1,
    telemetrySync w1 = true -> telemetryInstance w1 = Some l ->
    (forall w2, later w1 w2 -> GetAnalyticsEventContext w2 = Returns (Some l) w2)
    /\ (forall w2 c f,
           later w1 w2 -> heap w2 !! l = Some c ->
           (do p1 <- GetAnalyticsEventContext;
            do p2 <- GetAnalyticsEventContext;
            run store p1 f;
            load p2) w2
           = Returns (f c) (set_heap (<[l := f c]> (heap w2)) w2))).
  { intros l w1 Hs Hi.
    assert (Hget : forall w2, later w1 w2 ->
              GetAnalyticsEventContext w2 = Returns (Some l) w2).
    { intros w2 (Hi2 & Hs2 & _).
      rewrite GetAnalyticsEventContext_again by (rewrite Hs2; exact Hs).
      rewrite Hi2, Hi. reflexivity. }
    split; [exact Hget|].
    intros w2 c f Hl Hc. unfold bind.
    rewrite (Hget w2 Hl), (Hget w2 Hl), (store_run l c f w2 Hc).
    unfold load. cbn [heap set_heap]. rewrite lookup_insert_eq. reflexivity. }
  destruct (telemetrySync w) eqn:Hs.
  - destruct Hinv as (l & Hi & Hlive).
    exists l, w. rewrite GetAnalyticsEventContext_again by exact Hs.
    split; [rewrite Hi; reflexivity|].
    split; [unfold singleton_inv; rewrite Hs; eauto|].
    split; [exact Hs|]. split; [discriminate|]. split; [reflexivity|].
    apply Hlater; assumption.
  - eexists _, _. split; [apply GetAnalyticsEventContext_first, Hs|].
    split.
    { unfold singleton_inv. cbn. eexists. split; [reflexivity|].
      rewrite lookup_insert_eq. eauto. }
    split; [reflexivity|].
    split.
    { intros _. split; [|reflexivity].
      apply not_elem_of_dom. apply is_fresh. }
    split; [discriminate|].
    apply Hlater; reflexivity.
Qed.


(** ** Further properties of [SendEvent] *)

(** X1.  [SendEvent] reads the record and never writes it: whatever the
    receiver, the arguments and the outcome (skipped, failed, sent or
    panicked), the heap, the two package variables and the environment
    are after the call what they were before, and the call has read
    either no random byte or sixteen. *)
Theorem SendEvent_never_writes_context (e : ptr) (ctx : option context.Context)
        (eventName eventValue : string) (w : World) :
  let w' := final_world (SendEvent e ctx eventName eventValue w) in
  heap w' = heap w
  /\ telemetryInstance w' = telemetryInstance w
  /\ telemetrySync w' = telemetrySync w
  /\ environ w' = environ w
  /\ rand_reader w' = rand_reader w
  /\ (rand_pos w' = rand_pos w \/ rand_pos w' = (rand_pos w + 16)%nat).
Proof.
  cbv zeta.
  destruct (SendEvent_final e ctx eventName eventValue w)
    as (evs & n & -> & _ & _ & [-> | ->]);
    cbn; rewrite ?Nat.add_0_r; auto 10.
Qed.

(** X2.  On a nil or live receiver, when the random source delivers, the
    result with a nil response and a nil error comes back exactly when
    the call was opted out, and no result ever has both a response and
    an error: a caller can tell a skipped send from a delivered one and
    from a failed one. *)
Theorem SendEvent_nil_nil_iff_opted_out (e : ptr) (ctx : option context.Context)
        (eventName eventValue : string) (w : World) :
  valid_ptr e w ->
  rand_ready w 0 16 = true ->
  exists res w',
    SendEvent e ctx eventName eventValue w = Returns res w'
    /\ (res = (None, None) <-> telemetryOptedOut (optout_value w) = true)
    /\ (forall resp err, res <> (Some resp, Some err)).
Proof.
  intros Hv Hr. rewrite (SendEvent_run _ _ _ _ _ Hv), Hr.
  destruct (telemetryOptedOut (optout_value w)).
  { eexists _, _. split; [reflexivity|]. split; [tauto|discriminate]. }
  assert (Hno : forall r : option http.Response * option error,
             (exists x, r = (None, Some x)) \/ (exists x, r = (Some x, None)) ->
             (r = (None, None) <-> false = true)
             /\ (forall resp err, r <> (Some resp, Some err))).
  { intros r [[x ->]|[x ->]]; (split; [split; discriminate|discriminate]). }
  destruct (url_Parse analytics_endpoint) as [u|err];
    [|eexists _, _; split; [reflexivity|]; apply Hno; eauto].
  cbv zeta.
  destruct (http_NewRequest_check http.MethodPost (url_String u));
    [eexists _, _; split; [reflexivity|]; apply Hno; eauto|].
  match goal with |- context [client_run 9 ?r ?r] => set (req := r) end.
  pose proof (client_run_ok 9 req req) as Hok.
  destruct (client_run 9 req req) as [rs [resp [err|]]]; cbn [fst snd] in *.
  - eexists _, _; split; [reflexivity|]; apply Hno; eauto.
  - destruct (Hok eq_refl) as (r & _ & -> & _).
    eexists _, _; split; [reflexivity|]; apply Hno; eauto.
Qed.

Lemma sent_form_nil_pairs (id eventName eventValue : string) (unix : Z) :
  url.pairs (sent_form None id eventName eventValue unix) =
  [ "client_id=stripe-cli";
    "created=" +:+ url.QueryEscape (fmt_Sprint unix);
    "event_id=" +:+ url.QueryEscape id;
    "event_name=" +:+ url.QueryEscape eventName;
    "event_value=" +:+ url.QueryEscape eventValue ].
Proof.
  assert (Hkeys : url.sorted_keys (sent_form None id eventName eventValue unix)
                  = ["client_id"; "created"; "event_id"; "event_name"; "event_value"]).
  { unfold url.sorted_keys, sent_form, url.Set_. cbv zeta.
    rewrite !dom_insert_L, dom_empty_L. vm_compute. reflexivity. }
  unfold url.pairs. rewrite Hkeys. unfold sent_form, url.Set_. cbv zeta.
  cbn [flat_map]. lookups. reflexivity.
Qed.

(** X3.  [SendEvent] works on a nil receiver: nothing is dereferenced,
    and when the call is not opted out, the random source delivers and
    the request can be built, the request handed to the client, the
    first to go out, has a body that holds the five fixed keys and no
    field of a record. *)
Theorem SendEvent_nil_receiver (ctx : option context.Context)
        (eventName eventValue : string) (w : World) (u : url_URL) :
  telemetryOptedOut (optout_value w) = false ->
  url_Parse analytics_endpoint = inl u ->
  rand_ready w 0 16 = true ->
  http_NewRequest_check http.MethodPost (url_String u) = None ->
  exists req res w',
    SendEvent None ctx eventName eventValue w = Returns res w'
    /\ head (round_trips (new_events w w')) = Some req
    /\ split_on "&" (http.Body req) =
       [ "client_id=stripe-cli";
         "created=" +:+ url.QueryEscape
                          (fmt_Sprint ((now w + 5 * time.Second) / time.Second));
         "event_id=" +:+ url.QueryEscape (uuid_at w 0);
         "event_name=" +:+ url.QueryEscape eventName;
         "event_value=" +:+ url.QueryEscape eventValue ].
Proof.
  intros Hopt Hu Hr Hchk.
  rewrite (SendEvent_run None ctx eventName eventValue w I), Hopt, Hu, Hr.
  cbv zeta. rewrite Hchk. cbn [pointee].
  set (data := sent_form _ _ _ _ _).
  set (req := sent_request u ctx data).
  assert (Hbody : split_on "&" (http.Body req) = url.pairs data).
  { unfold req, sent_request, url.Encode. cbn [http.Body].
    apply split_on_Join; [|apply pairs_no_amp].
    unfold data. rewrite sent_form_nil_pairs. discriminate. }
  unfold data in Hbody. rewrite sent_form_nil_pairs in Hbody. fold data in Hbody.
  destruct (client_run_first 9 req req) as [rest Hfirst].
  destruct (client_run 9 req req) as [rs [resp [err|]]]; cbn [fst snd] in *;
    subst rs;
    (eexists req, _, _; split; [reflexivity|]);
    rewrite new_events_world_after; (split; [reflexivity|exact Hbody]).
Qed.

(** ** Further properties of the setters *)

(** Both setters panic on a nil receiver and leave the heap and the
    package variables as they were. *)
Lemma setters_panic_on_nil (cmd : cobra.Command) (w : World) :
  (exists msg w', SetCommandContext None cmd w = Panics msg w'
                  /\ heap w' = heap w
                  /\ telemetryInstance w' = telemetryInstance w
                  /\ telemetrySync w' = telemetrySync w)
  /\ (exists msg w', SetInvocationID None w = Panics msg w'
                     /\ heap w' = heap w
                     /\ telemetryInstance w' = telemetryInstance w
                     /\ telemetrySync w' = telemetrySync w).
Proof.
  split.
  - eexists _, _. split; [reflexivity|]. cbn. auto.
  - unfold SetInvocationID, bind. destruct (rand_ready w 0 16) eqn:Hr.
    + rewrite uuid_NewString_run by exact Hr.
      eexists _, _. split; [reflexivity|]. cbn. auto.
    + rewrite uuid_NewString_fails by exact Hr.
      eexists _, _. split; [reflexivity|]. auto.
Qed.

(** X4.  The two setters write different fields, so on a live record,
    when the random source delivers, they commute: binding the command and then assigning the identifier
    leaves the same world as doing it the other way round. *)
Theorem setters_commute (l : loc) (c : CLIAnalyticsEventContext)
        (cmd : cobra.Command) (w : World) :
  heap w !! l = Some c ->
  rand_ready w 0 16 = true ->
  (run SetCommandContext (Some l) cmd; SetInvocationID (Some l)) w
  = (run SetInvocationID (Some l); SetCommandContext (Some l) cmd) w
  /\ exists w',
      (run SetCommandContext (Some l) cmd; SetInvocationID (Some l)) w
      = Returns tt w'
      /\ heap w' !! l
         = Some (set_InvocationID (uuid_at w 0)
                   (set_GeneratedResource (is_generated cmd)
                      (set_CommandPath (cobra.CommandPath cmd) c))).
Proof.
  intros Hc Hr. unfold bind.
  rewrite (SetCommandContext_run l c cmd w Hc).
  rewrite (SetInvocationID_run l c w Hc Hr).
  erewrite SetInvocationID_run; [|apply lookup_insert_eq|exact Hr].
  rewrite (SetCommandContext_run l _ cmd _ (lookup_insert_eq _ _ _)).
  cbn [heap set_heap set_rand_pos rand_pos]. rewrite !insert_insert_eq.
  split; [reflexivity|].
  eexists. split; [reflexivity|]. cbn [heap set_heap]. apply lookup_insert_eq.
Qed.

(** ** What [Values.Encode] writes can be cut apart again *)

Lemma upperhex_plain (n : Z) :
  url.shouldEscape (index_string url.upperhex n) = false
  \/ index_string url.upperhex n = "000"%char.
Proof.
  unfold index_string. generalize (Z.to_nat n) as k. intros k.
  do 16 (destruct k as [|k]; [left; reflexivity|]). right. reflexivity.
Qed.

Lemma shouldEscape_differs (c x : ascii) :
  url.shouldEscape c = true -> url.shouldEscape x = false -> Ascii.eqb x c = false.
Proof.
  intros Hc Hx. destruct (Ascii.eqb x c) eqn:E; [|reflexivity].
  apply Ascii.eqb_eq in E. congruence.
Qed.

(** A byte that [QueryEscape] escapes, other than the ones it writes
    itself, is in no escaped string. *)
Lemma QueryEscape_avoids (c : ascii) (s : string) :
  url.shouldEscape c = true ->
  c <> "+"%char -> c <> "%"%char -> c <> "000"%char ->
  contains c (url.QueryEscape s) = false.
Proof.
  intros Hc Hplus Hpct Hnul.
  assert (Hhex : forall n, Ascii.eqb (index_string url.upperhex n) c = false).
  { intros n. destruct (upperhex_plain n) as [H|H].
    - apply (shouldEscape_differs c _ Hc H).
    - rewrite H. apply Ascii.eqb_neq. congruence. }
  induction s as [|x s IH]; [reflexivity|].
  cbn [url.QueryEscape].
  destruct (url.shouldEscape x) eqn:Hx.
  - destruct (Ascii.eqb x " "); cbn [contains].
    + rewrite IH. replace (Ascii.eqb "+" c) with false; [reflexivity|].
      symmetry. apply Ascii.eqb_neq. congruence.
    + rewrite !Hhex, IH. replace (Ascii.eqb "%" c) with false; [reflexivity|].
      symmetry. apply Ascii.eqb_neq. congruence.
  - cbn [contains]. rewrite (shouldEscape_differs c x Hc Hx), IH. reflexivity.
Qed.

Lemma QueryEscape_no_eq (s : string) : contains "=" (url.QueryEscape s) = false.
Proof. apply QueryEscape_avoids; [reflexivity|discriminate..]. Qed.

Lemma pair_split (k x : string) :
  split_on "=" (url.QueryEscape k +:+ "=" +:+ url.QueryEscape x)
  = [url.QueryEscape k; url.QueryEscape x].
Proof.
  change ("=" +:+ url.QueryEscape x) with (String "=" (url.QueryEscape x)).
  rewrite split_on_cons by apply QueryEscape_no_eq.
  rewrite split_on_clean by apply QueryEscape_no_eq. reflexivity.
Qed.

(** Cut at [&] and then at [=], an encoded form is its keys in sorted
    order, each with its values, all escaped; no byte of a key or value
    can add a piece or move a boundary. *)
Lemma Encode_cuts (v : url.Values) :
  url.pairs v <> [] ->
  map (split_on "=") (split_on "&" (url.Encode v))
  = flat_map (fun k => map (fun x => [url.QueryEscape k; url.QueryEscape x])
                           (default [] (v !! k)))
             (url.sorted_keys v).
Proof.
  intros Hne. unfold url.Encode.
  rewrite split_on_Join; [|exact Hne|apply pairs_no_amp].
  unfold url.pairs. induction (url.sorted_keys v) as [|k ks IH]; [reflexivity|].
  cbn [flat_map]. rewrite map_app, IH. f_equal.
  rewrite List.map_map. apply map_ext. intros x. apply pair_split.
Qed.

(** A send on a live receiver that gets as far as the client. *)
Lemma SendEvent_live_sent (l : loc) (c : CLIAnalyticsEventContext)
      (ctx : option context.Context) (eventName eventValue : string)
      (w : World) (u : url_URL) :
  telemetryOptedOut (optout_value w) = false ->
  heap w !! l = Some c ->
  url_Parse analytics_endpoint = inl u ->
  rand_ready w 0 16 = true ->
  http_NewRequest_check http.MethodPost (url_String u) = None ->
  let req := sent_request u ctx
               (sent_form (Some c) (uuid_at w 0) eventName eventValue
                          ((now w + 5 * time.Second) / time.Second)) in
  exists res evs rest,
    SendEvent (Some l) ctx eventName eventValue w
    = Returns res (world_after w (gate_events ++ evs) 16)
    /\ round_trips evs = req :: rest /\ sleeps evs = [].
Proof.
  intros Hopt Hc Hu Hr Hchk. cbv zeta.
  assert (Hv : valid_ptr (Some l) w) by (cbn; rewrite Hc; eauto).
  rewrite (SendEvent_run _ ctx eventName eventValue _ Hv), Hopt, Hu, Hr.
  cbv zeta. rewrite Hchk. cbn [pointee]. rewrite Hc.
  match goal with |- context [client_run 9 ?r ?r] => set (req := r) end.
  destruct (client_run_first 9 req req) as [rest Hfirst].
  destruct (client_run 9 req req) as [rs [resp [err|]]]; cbn [fst snd] in *;
    subst rs; eexists _, _, rest; (split; [reflexivity|]);
    rewrite ?round_trips_app, ?sleeps_app, round_trips_map, sleeps_map;
    split; try reflexivity.
  apply app_nil_r.
Qed.

Lemma FormatBool_plain (b : bool) :
  url.QueryEscape (query.FormatBool b) = query.FormatBool b.
Proof. destruct b; reflexivity. Qed.

(** X5.  Whatever bytes the event name, the event value and the fields
    of the record hold, the body of the request handed to the client,
    the first to go out, cut at
    [&] and then at [=], is the fourteen keys in sorted order, each with
    exactly one escaped value: no input can add a field, drop one or
    change a key. *)
Theorem SendEvent_fields_cannot_be_forged (l : loc) (c : CLIAnalyticsEventContext)
        (ctx : option context.Context) (eventName eventValue : string)
        (w : World) (u : url_URL) :
  telemetryOptedOut (optout_value w) = false ->
  heap w !! l = Some c ->
  url_Parse analytics_endpoint = inl u ->
  rand_ready w 0 16 = true ->
  http_NewRequest_check http.MethodPost (url_String u) = None ->
  exists req res w',
    SendEvent (Some l) ctx eventName eventValue w = Returns res w'
    /\ head (round_trips (new_events w w')) = Some req
    /\ map (split_on "=") (split_on "&" (http.Body req)) =
       [ ["cli_version"; url.QueryEscape (CLIVersion c)];
         ["client_id"; "stripe-cli"];
         ["command_path"; url.QueryEscape (CommandPath c)];
         ["created"; url.QueryEscape
                       (fmt_Sprint ((now w + 5 * time.Second) / time.Second))];
         ["event_id"; url.QueryEscape (uuid_at w 0)];
         ["event_name"; url.QueryEscape eventName];
         ["event_value"; url.QueryEscape eventValue];
         ["generated_resource"; query.FormatBool (GeneratedResource c)];
         ["invocation_id"; url.QueryEscape (InvocationID c)];
         ["livemode"; query.FormatBool (LiveMode c)];
         ["merchant"; url.QueryEscape (Merchant c)];
         ["os"; url.QueryEscape (OS c)];
         ["request_id"; url.QueryEscape (RequestID c)];
         ["user_agent"; url.QueryEscape (UserAgent c)] ].
Proof.
  intros Hopt Hc Hu Hr Hchk.
  destruct (SendEvent_live_sent l c ctx eventName eventValue w u Hopt Hc Hu Hr Hchk)
    as (res & evs & rest & Hrun & Hrt & _).
  eexists _, res, _. split; [exact Hrun|].
  rewrite new_events_world_after, round_trips_app, Hrt.
  split; [reflexivity|].
  cbn [sent_request http.Body].
  rewrite Encode_cuts by (rewrite sent_form_pairs; discriminate).
  rewrite sent_form_keys. unfold form_keys, sent_form, url.Set_. cbv zeta.
  rewrite reflectValue_inserts. cbn [flat_map]. lookups.
  cbn [from_option id map app]. rewrite !FormatBool_plain. reflexivity.
Qed.

(** ** What [QueryEscape] writes can be read back *)

Lemma ascii_byte_id (c : ascii) : ascii_of_byte (byte_of_ascii c) = c.
Proof.
  unfold ascii_of_byte, byte_of_ascii. rewrite N2Z.id. apply ascii_N_embedding.
Qed.

Lemma byte_of_ascii_range (c : ascii) : is_byte (byte_of_ascii c).
Proof.
  unfold is_byte, byte_of_ascii. pose proof (N_ascii_bounded c). lia.
Qed.

Lemma upperhex_reads (n : Z) :
  0 <= n < 16 ->
  url_ishex (index_string url.upperhex n) = true
  /\ url_unhex (index_string url.upperhex n) = n.
Proof. intros Hn. by_cases n 16%nat. Qed.

Lemma nibbles_join (b : Z) :
  is_byte b -> Z.lor (Z.shiftl (Z.shiftr b 4) 4) (Z.land b 15) = b.
Proof.
  unfold is_byte. intros Hb. apply Z.bits_inj'. intros i Hi.
  rewrite Z.lor_spec, Z.land_spec.
  destruct (Z.ltb_spec i 4) as [Hlt|Hge].
  - rewrite Z.shiftl_spec_low by lia.
    change 15 with (Z.ones 4). rewrite Z.ones_spec_low by lia.
    cbn. apply andb_true_r.
  - rewrite Z.shiftl_spec by lia. rewrite Z.shiftr_spec by lia.
    change 15 with (Z.ones 4). rewrite Z.ones_spec_high by lia.
    rewrite andb_false_r, orb_false_r. f_equal. lia.
Qed.

(** [url.QueryUnescape] undoes [url.QueryEscape] on every string. *)
Lemma QueryUnescape_QueryEscape (s : string) :
  url_QueryUnescape (url.QueryEscape s) = Some s.
Proof.
  induction s as [|c s IH]; [reflexivity|].
  cbn [url.QueryEscape].
  destruct (url.shouldEscape c) eqn:Hesc.
  - destruct (Ascii.eqb c " ") eqn:Hsp.
    + apply Ascii.eqb_eq in Hsp. subst c.
      cbn [url_QueryUnescape]. rewrite IH. reflexivity.
    + cbn [url_QueryUnescape].
      change (Ascii.eqb "%" "%") with true. cbv iota.
      destruct (upperhex_reads _ (hi_nibble _ (byte_of_ascii_range c))) as [-> ->].
      destruct (upperhex_reads _ (lo_nibble (byte_of_ascii c))) as [-> ->].
      cbn [andb]. rewrite IH, (nibbles_join _ (byte_of_ascii_range c)), ascii_byte_id.
      reflexivity.
  - cbn [url_QueryUnescape].
    rewrite (shouldEscape_differs "%" c eq_refl Hesc).
    rewrite (shouldEscape_differs "+" c eq_refl Hesc).
    rewrite IH. reflexivity.
Qed.

(** Different strings escape differently. *)
Lemma QueryEscape_inj (a b : string) :
  url.QueryEscape a = url.QueryEscape b -> a = b.
Proof.
  intros H. apply (f_equal url_QueryUnescape) in H.
  rewrite !QueryUnescape_QueryEscape in H. congruence.
Qed.

Lemma FormatBool_inj (a b : bool) : query.FormatBool a = query.FormatBool b -> a = b.
Proof. destruct a, b; (reflexivity || discriminate). Qed.

Lemma fmt_Sprint_inj (a b : Z) : fmt_Sprint a = fmt_Sprint b -> a = b.
Proof.
  intros H. pose proof (fmt_Sprint_reads_back a) as Ha.
  rewrite H, fmt_Sprint_reads_back in Ha. congruence.
Qed.

(** The encoded form determines what went into it. *)
Lemma sent_form_lossless (c1 c2 : CLIAnalyticsEventContext)
      (id1 id2 n1 n2 v1 v2 : string) (t1 t2 : Z) :
  url.Encode (sent_form (Some c1) id1 n1 v1 t1)
  = url.Encode (sent_form (Some c2) id2 n2 v2 t2) ->
  c1 = c2 /\ id1 = id2 /\ n1 = n2 /\ v1 = v2 /\ t1 = t2.
Proof.
  intros H. apply (f_equal (split_on "&")) in H.
  rewrite !sent_form_body, !sent_form_pairs in H.
  lazy beta iota zeta delta [String.append] in H.
  injection H as Hcv Hcp Hcr Hid Hn Hv Hgr Hinv Hlm Hm Hos Hrid Hua.
  apply QueryEscape_inj in Hcv, Hcp, Hcr, Hid, Hn, Hv, Hgr, Hinv, Hlm, Hm, Hos, Hrid, Hua.
  apply FormatBool_inj in Hgr, Hlm. apply fmt_Sprint_inj in Hcr.
  destruct c1, c2. cbn in *. subst. auto.
Qed.

(** X6.  Nothing is lost in the encoding: if two sends on live receivers
    hand the client requests with the same body, then the two records were equal field
    for field, and so were the event names, the event values, the event
    identifiers and the timestamps. *)
Theorem SendEvent_body_is_lossless (l1 l2 : loc) (c1 c2 : CLIAnalyticsEventContext)
        (ctx1 ctx2 : option context.Context) (n1 n2 v1 v2 : string)
        (w1 w2 : World) (u : url_URL) :
  telemetryOptedOut (optout_value w1) = false ->
  telemetryOptedOut (optout_value w2) = false ->
  heap w1 !! l1 = Some c1 ->
  heap w2 !! l2 = Some c2 ->
  url_Parse analytics_endpoint = inl u ->
  rand_ready w1 0 16 = true ->
  rand_ready w2 0 16 = true ->
  http_NewRequest_check http.MethodPost (url_String u) = None ->
  exists req1 req2 r1 r2 w1' w2',
    SendEvent (Some l1) ctx1 n1 v1 w1 = Returns r1 w1'
    /\ head (round_trips (new_events w1 w1')) = Some req1
    /\ SendEvent (Some l2) ctx2 n2 v2 w2 = Returns r2 w2'
    /\ head (round_trips (new_events w2 w2')) = Some req2
    /\ (http.Body req1 = http.Body req2 ->
        c1 = c2 /\ n1 = n2 /\ v1 = v2
        /\ uuid_at w1 0 = uuid_at w2 0
        /\ (now w1 + 5 * time.Second) / time.Second
           = (now w2 + 5 * time.Second) / time.Second).
Proof.
  intros Ho1 Ho2 Hc1 Hc2 Hu Hr1 Hr2 Hchk.
  destruct (SendEvent_live_sent l1 c1 ctx1 n1 v1 w1 u Ho1 Hc1 Hu Hr1 Hchk)
    as (r1 & evs1 & rest1 & Hrun1 & Hrt1 & _).
  destruct (SendEvent_live_sent l2 c2 ctx2 n2 v2 w2 u Ho2 Hc2 Hu Hr2 Hchk)
    as (r2 & evs2 & rest2 & Hrun2 & Hrt2 & _).
  eexists _, _, r1, r2, _, _.
  split; [exact Hrun1|]. rewrite new_events_world_after, round_trips_app, Hrt1.
  split; [reflexivity|].
  split; [exact Hrun2|]. rewrite new_events_world_after, round_trips_app, Hrt2.
  split; [reflexivity|].
  cbn [sent_request http.Body]. intros Hbody.
  destruct (sent_form_lossless _ _ _ _ _ _ _ _ _ _ Hbody) as (? & ? & ? & ? & ?).
  auto.
Qed.

(** ** The calls in sequence *)

(** X7.  One invocation as the host runs it, from a process that has not
    yet asked for the context: get the context, bind the command, assign
    the identifier, send.  When the send is not opted out, the random
    source delivers both identifiers and the request can be built, the
    request handed to the client is the first to go out; its body
    carries the command's path, the flag for a generated command, the identifier just
    assigned, an event identifier made from the sixteen random bytes
    after it, and empty or false for the five fields nobody set. *)
Theorem one_invocation (cmd : cobra.Command) (ctx : option context.Context)
        (eventName eventValue : string) (w : World) (u : url_URL) :
  telemetrySync w = false ->
  telemetryOptedOut (optout_value w) = false ->
  url_Parse analytics_endpoint = inl u ->
  rand_ready w 0 16 = true ->
  rand_ready w 16 16 = true ->
  http_NewRequest_check http.MethodPost (url_String u) = None ->
  exists l req res w',
    (do p <- GetAnalyticsEventContext;
     run SetCommandContext p cmd;
     run SetInvocationID p;
     SendEvent p ctx eventName eventValue) w = Returns res w'
    /\ telemetryInstance w' = Some l
    /\ heap w' !! l
       = Some (set_InvocationID (uuid_at w 0)
                 (set_GeneratedResource (is_generated cmd)
                    (set_CommandPath (cobra.CommandPath cmd) zero_context)))
    /\ head (round_trips (new_events w w')) = Some req
    /\ split_on "&" (http.Body req) =
       [ "cli_version=";
         "client_id=stripe-cli";
         "command_path=" +:+ url.QueryEscape (cobra.CommandPath cmd);
         "created=" +:+ url.QueryEscape
                          (fmt_Sprint ((now w + 5 * time.Second) / time.Second));
         "event_id=" +:+ url.QueryEscape (uuid_at w 16);
         "event_name=" +:+ url.QueryEscape eventName;
         "event_value=" +:+ url.QueryEscape eventValue;
         "generated_resource=" +:+ query.FormatBool (is_generated cmd);
         "invocation_id=" +:+ url.QueryEscape (uuid_at w 0);
         "livemode=false";
         "merchant=";
         "os=";
         "request_id=";
         "user_agent=" ]
    /\ (uuid_at w 16 <> uuid_at w 0
        <-> uuid.stamp (draw w 16) <> uuid.stamp (draw w 0)).
Proof.
  intros Hs Hopt Hu Hr Hr2 Hchk.
  set (l := fresh (dom (heap w))).
  set (c := set_InvocationID (uuid_at w 0)
              (set_GeneratedResource (is_generated cmd)
                 (set_CommandPath (cobra.CommandPath cmd) zero_context))).
  set (w3 := set_heap (<[l := c]> (heap w))
               (set_rand_pos (rand_pos w + 16)
                  (set_telemetrySync true (set_telemetryInstance (Some l) w)))).
  assert (Hpre :
    (do p <- GetAnalyticsEventContext;
     run SetCommandContext p cmd;
     run SetInvocationID p;
     SendEvent p ctx eventName eventValue) w
    = SendEvent (Some l) ctx eventName eventValue w3).
  { unfold bind at 1. rewrite (GetAnalyticsEventContext_first w Hs). cbv zeta.
    fold l. unfold bind at 1.
    rewrite (SetCommandContext_run l zero_context cmd _ (lookup_insert_eq _ _ _)).
    unfold bind at 1.
    erewrite SetInvocationID_run; [|apply lookup_insert_eq|exact Hr].
    cbn [heap set_heap set_telemetrySync set_telemetryInstance set_rand_pos rand_pos].
    rewrite !insert_insert_eq. reflexivity. }
  assert (Hid : uuid_at w3 0 = uuid_at w 16) by (apply uuid_at_shift; reflexivity).
  assert (Hr3 : rand_ready w3 0 16 = true)
    by (rewrite (rand_ready_shift w w3 16) by reflexivity; exact Hr2).
  destruct (SendEvent_live_sent l c ctx eventName eventValue w3 u Hopt
              (lookup_insert_eq _ _ _) Hu Hr3 Hchk)
    as (res & evs & rest & Hrun & Hrt & _).
  rewrite Hid in Hrt.
  eexists l, _, res, _. rewrite Hpre. split; [exact Hrun|].
  split; [reflexivity|]. split; [apply lookup_insert_eq|].
  split.
  { rewrite (new_events_app w _ (gate_events ++ evs)) by reflexivity.
    rewrite round_trips_app, Hrt. reflexivity. }
  split; [|apply uuid_at_differ].
  cbn [sent_request http.Body].
  rewrite sent_form_body, sent_form_pairs.
  unfold c. cbn [CLIVersion CommandPath GeneratedResource InvocationID LiveMode
                   Merchant OS RequestID UserAgent set_InvocationID
                   set_GeneratedResource set_CommandPath zero_context].
  rewrite FormatBool_plain. reflexivity.
Qed.

(** X8.  Two sends in a row from one live record that is not changed in
    between, with a random source that delivers both times: each call
    sleeps its own five seconds and hands the client one request, the
    first of that call to go out; both bodies are made from the same
    record, the second with an event identifier made from the next
    sixteen random bytes and with the clock as the first call left
    it. *)
Theorem SendEvent_twice (l : loc) (c : CLIAnalyticsEventContext)
        (ctx : option context.Context) (n1 v1 n2 v2 : string)
        (w : World) (u : url_URL) :
  telemetryOptedOut (optout_value w) = false ->
  heap w !! l = Some c ->
  url_Parse analytics_endpoint = inl u ->
  rand_ready w 0 16 = true ->
  rand_ready w 16 16 = true ->
  http_NewRequest_check http.MethodPost (url_String u) = None ->
  exists req1 req2 r1 r2 w1 w2,
    SendEvent (Some l) ctx n1 v1 w = Returns r1 w1
    /\ SendEvent (Some l) ctx n2 v2 w1 = Returns r2 w2
    /\ head (round_trips (new_events w w1)) = Some req1
    /\ head (round_trips (new_events w1 w2)) = Some req2
    /\ sleeps (new_events w w2) = [5 * time.Second; 5 * time.Second]
    /\ http.Body req1
       = url.Encode (sent_form (Some c) (uuid_at w 0) n1 v1
                               ((now w + 5 * time.Second) / time.Second))
    /\ http.Body req2
       = url.Encode (sent_form (Some c) (uuid_at w 16) n2 v2
                               ((now w1 + 5 * time.Second) / time.Second))
    /\ now w1 = now w + 5 * time.Second
    /\ (uuid_at w 0 <> uuid_at w 16
        <-> uuid.stamp (draw w 0) <> uuid.stamp (draw w 16)).
Proof.
  intros Hopt Hc Hu Hr Hr2 Hchk.
  destruct (SendEvent_live_sent l c ctx n1 v1 w u Hopt Hc Hu Hr Hchk)
    as (r1 & evs1 & rest1 & Hrun1 & Hrt1 & Hsl1).
  set (w1 := world_after w (gate_events ++ evs1) 16) in *.
  assert (Hid : uuid_at w1 0 = uuid_at w 16) by (apply uuid_at_shift; reflexivity).
  assert (Hr1 : rand_ready w1 0 16 = true)
    by (rewrite (rand_ready_shift w w1 16) by reflexivity; exact Hr2).
  destruct (SendEvent_live_sent l c ctx n2 v2 w1 u Hopt Hc Hu Hr1 Hchk)
    as (r2 & evs2 & rest2 & Hrun2 & Hrt2 & Hsl2).
  rewrite Hid in Hrt2.
  eexists _, _, r1, r2, w1, _.
  split; [exact Hrun1|]. split; [exact Hrun2|].
  assert (H1 : new_events w w1 = (gate_events ++ evs1)%list)
    by apply new_events_world_after.
  assert (H2 : new_events w1 (world_after w1 (gate_events ++ evs2) 16)
               = (gate_events ++ evs2)%list)
    by apply new_events_world_after.
  assert (H3 : new_events w (world_after w1 (gate_events ++ evs2) 16)
               = ((gate_events ++ evs1) ++ gate_events ++ evs2)%list)
    by (apply new_events_app; cbn [trace world_after w1];
        rewrite <- !app_assoc; reflexivity).
  rewrite H1, H2, H3.
  rewrite !round_trips_app, !sleeps_app, Hrt1, Hrt2, Hsl1, Hsl2.
  split; [reflexivity|]. split; [reflexivity|].
  split; [reflexivity|]. split; [reflexivity|]. split; [reflexivity|].
  split; [reflexivity|].
  apply uuid_at_differ.
Qed.

(** X9.  On a live record the two setters touch that record and nothing
    else: every other record in the heap, the package variables, the
    environment, the clock and the trace are as before, so neither setter
    sleeps, prints or reaches the network. *)
Theorem setters_touch_one_record (l : loc) (c : CLIAnalyticsEventContext)
        (cmd : cobra.Command) (w : World) :
  heap w !! l = Some c ->
  forall w',
    w' = final_world (SetCommandContext (Some l) cmd w)
    \/ w' = final_world (SetInvocationID (Some l) w) ->
    (forall l', l' <> l -> heap w' !! l' = heap w !! l')
    /\ dom (heap w') = dom (heap w)
    /\ telemetryInstance w' = telemetryInstance w
    /\ telemetrySync w' = telemetrySync w
    /\ environ w' = environ w
    /\ now w' = now w
    /\ trace w' = trace w.
Proof.
  intros Hc w' [->| ->].
  - rewrite (SetCommandContext_run l c cmd w Hc). cbn.
    split; [intros l' Hne; apply lookup_insert_ne; congruence|].
    split; [|auto].
    rewrite dom_insert_L. apply subseteq_union_1_L, singleton_subseteq_l.
    exact (elem_of_dom_2 _ _ _ Hc).
  - destruct (rand_ready w 0 16) eqn:Hr.
    2:{ rewrite (SetInvocationID_fails _ w Hr). cbn. auto 10. }
    rewrite (SetInvocationID_run l c w Hc Hr). cbn.
    split; [intros l' Hne; apply lookup_insert_ne; congruence|].
    split; [|auto].
    rewrite dom_insert_L. apply subseteq_union_1_L, singleton_subseteq_l.
    exact (elem_of_dom_2 _ _ _ Hc).
Qed.

Lemma existsb_Permutation {A} (f : A -> bool) (xs ys : list A) :
  xs ≡ₚ ys -> existsb f xs = existsb f ys.
Proof.
  intros Hp. apply eq_true_iff_eq. rewrite !existsb_exists.
  split; intros (x & Hin & Hx); exists x; (split; [|exact Hx]).
  - apply (Permutation_in _ Hp), Hin.
  - apply (Permutation_in _ (Permutation_sym Hp)), Hin.
Qed.

(** X10.  Go visits the entries of a map in no fixed order.  On a live
    record, whatever order the loop of [SetCommandContext] takes the
    annotations in, the world it leaves is the same. *)
Theorem SetCommandContext_any_order (order : list (string * string))
        (l : loc) (c : CLIAnalyticsEventContext) (cmd : cobra.Command) (w : World) :
  order ≡ₚ map_to_list (cobra.Annotations cmd) ->
  heap w !! l = Some c ->
  SetCommandContext_ranging order (Some l) cmd w
  = SetCommandContext (Some l) cmd w.
Proof.
  intros Hp Hc. rewrite (SetCommandContext_run l c cmd w Hc).
  unfold SetCommandContext_ranging, bind.
  rewrite (store_run l c _ w Hc).
  rewrite (store_run l (set_CommandPath (cobra.CommandPath cmd) c))
    by apply lookup_insert_eq.
  cbn [heap set_heap]. rewrite insert_insert_eq.
  rewrite (mark_loop l _ (set_GeneratedResource false
                            (set_CommandPath (cobra.CommandPath cmd) c)))
    by apply lookup_insert_eq.
  cbn [heap set_heap]. rewrite insert_insert_eq.
  unfold is_generated. rewrite (existsb_Permutation _ _ _ Hp).
  destruct (existsb _ _); reflexivity.
Qed.
End Platform.

(** ** The theorems at work on the sample surroundings *)

Lemma sample_world_valid : valid_ptr (Some 1%positive) sample_world.
Proof. exists sample_context. reflexivity. Qed.

(** C1 on a process started with [STRIPE_CLI_TELEMETRY_OPTOUT=true]. *)
Lemma SendEvent_opted_out_is_noop_witness :
  sample_optedOut (optout_value optout_world) = true
  /\ exists w',
      SendEvent sample_optedOut sample_Parse sample_check sample_network sample_next_request
                (Some 1%positive) None "purchase" "42" optout_world
      = Returns (None, None) w'
      /\ round_trips (new_events optout_world w') = []
      /\ printed (new_events optout_world w') = []
      /\ heap w' = heap optout_world
      /\ rand_pos w' = rand_pos optout_world.
Proof.
  assert (H : sample_optedOut (optout_value optout_world) = true)
    by (vm_compute; reflexivity).
  split; [exact H|].
  exact (SendEvent_opted_out_is_noop sample_optedOut sample_Parse sample_check
           sample_network sample_next_request (Some 1%positive) None "purchase" "42" optout_world H).
Defined.

(** C2 on a process whose network is down: the transport's error comes
    back in the client's wrapping with a nil response, after one round
    trip. *)
Lemma SendEvent_returns_every_failure_witness :
  let o := SendEvent sample_optedOut sample_Parse sample_check unreachable_network
                     sample_next_request (Some 1%positive) None "purchase" "42"
                     sample_world in
  sample_optedOut (optout_value sample_world) = false
  /\ valid_ptr (Some 1%positive) sample_world
  /\ sleeps (new_events sample_world (final_world o)) = [5 * time.Second]
  /\ exists req,
      round_trips (new_events sample_world (final_world o)) = [req]
      /\ o = Returns (None,
                      Some (url_Error "Post" "https://r.stripe.com/0"
                              (errors_New "dial tcp: connection refused")))
                     (final_world o).
Proof.
  cbv zeta.
  assert (H : sample_optedOut (optout_value sample_world) = false)
    by (vm_compute; reflexivity).
  split; [exact H|]. split; [exact sample_world_valid|].
  pose proof (SendEvent_returns_every_failure sample_optedOut sample_Parse
                sample_check unreachable_network sample_next_request
                (Some 1%positive) None "purchase" "42" sample_world
                H sample_world_valid) as Hthm.
  cbv zeta in Hthm. destruct Hthm as [Hsl Hcase]. split; [exact Hsl|].
  change (rand_ready sample_world 0 16) with true in Hcase.
  cbv beta iota delta [sample_Parse sample_check] in Hcase.
  destruct Hcase as (resp & err & w2 & _ & Ho & _ & _ & _ & _ & _ & Herr & _).
  destruct (Herr _ eq_refl) as [-> Hsent].
  eexists. split; [exact Hsent|exact Ho].
Defined.

(** C2 fails as the spec words it: when the random source fails, a call
    that is not opted out panics where it makes the event identifier,
    and returns nothing. *)
Lemma SendEvent_panics_without_random_bytes :
  let o := SendEvent sample_optedOut sample_Parse sample_check sample_network
                     sample_next_request (Some 1%positive) None "purchase" "42"
                     dry_world in
  sample_optedOut (optout_value dry_world) = false
  /\ o = Panics "crypto/rand: read failed" (final_world o)
  /\ returned o = None
  /\ round_trips (new_events dry_world (final_world o)) = [].
Proof. vm_compute. repeat split. Qed.






Lemma In_sleeps (d : Z) (evs : list Event) :
  In (EvSleep d) evs -> In d (sleeps evs).
Proof.
  intros H. apply list_elem_of_In. unfold sleeps. apply list_elem_of_omap.
  exists (EvSleep d). split; [apply list_elem_of_In, H|reflexivity].
Qed.

(** C6 fails as the spec words it: the delay is no parameter.  No choice
    of surroundings, receiver, context, arguments or world makes
    [SendEvent] sleep for anything but five seconds. *)
Lemma pre_send_delay_not_configurable :
  ~ exists (optedOut : string -> bool) (parse : string -> url_URL + error)
           (check : string -> string -> option error)
           (net : http.Request -> http.Response + error)
           (next : http.Request -> http.Request -> string -> string -> bool
                   -> http.Request + error)
           (e : ptr) (ctx : option context.Context) (eventName eventValue : string)
           (w : World) (d : Z),
      In (EvSleep d)
         (new_events w (final_world
                          (SendEvent optedOut parse check net next e ctx
                                     eventName eventValue w)))
      /\ d <> 5 * time.Second.
Proof.
  intros (optedOut & parse & check & net & next & e & ctx & n & v & w & d & Hin & Hd).
  apply In_sleeps in Hin. rewrite SendEvent_sleeps in Hin.
  destruct Hin as [H|[]]. apply Hd. symmetry. exact H.
Qed.

(** C7 on a generated command and a hand-written one. *)
Lemma SetCommandContext_binds_witness :
  heap sample_world !! 1%positive = Some sample_context
  /\ exists c',
      SetCommandContext (Some 1%positive) plain_command sample_world
      = Returns tt (set_heap (<[1%positive := c']> (heap sample_world)) sample_world)
      /\ CommandPath c' = "stripe login"
      /\ (GeneratedResource c' = true
          <-> exists k, cobra.Annotations plain_command !! k = Some "operation")
      /\ (run SetCommandContext (Some 1%positive) plain_command;
          SetCommandContext (Some 1%positive) sample_command) sample_world
         = SetCommandContext (Some 1%positive) sample_command sample_world.
Proof.
  split; [reflexivity|].
  destruct (SetCommandContext_binds 1%positive sample_context plain_command
              sample_world eq_refl)
    as (c' & Hrun & Hpath & Hflag & _ & _ & _ & _ & _ & _ & _ & Hagain & _).
  exists c'. split; [exact Hrun|]. split; [exact Hpath|].
  split; [exact Hflag|]. apply Hagain.
Defined.

(** C8 on the sample random source, whose first two draws differ. *)
Lemma SetInvocationID_fresh_witness :
  heap sample_world !! 1%positive = Some sample_context
  /\ rand_ready sample_world 0 16 = true
  /\ rand_ready sample_world 16 16 = true
  /\ exists w1 w2 c1 c2,
      SetInvocationID (Some 1%positive) sample_world = Returns tt w1
      /\ heap w1 !! 1%positive = Some c1
      /\ SetInvocationID (Some 1%positive) w1 = Returns tt w2
      /\ heap w2 !! 1%positive = Some c2
      /\ InvocationID c1 = "0b30557a-9fc4-490e-b358-7da2c7ec1136"
      /\ InvocationID c2 = "5b80a5ca-ef14-495e-83a8-cdf2173c6186"
      /\ CommandPath c2 = "stripe customers list"
      /\ InvocationID c1 <> InvocationID c2.
Proof.
  split; [reflexivity|]. split; [reflexivity|]. split; [reflexivity|].
  destruct (SetInvocationID_fresh 1%positive sample_context sample_world eq_refl)
    as [_ Hok].
  destruct (Hok eq_refl)
    as (w1 & c1 & H1 & Hh1 & Hid1 & _ & _ & _ & _ & _ & _ & _ & _ & _ & _ & _ & Hnext).
  destruct (Hnext eq_refl)
    as (w2 & c2 & H2 & Hh2 & Hid2 & _ & _ & _ & Hcp & _ & _ & _ & _ & _ & _ & _ & Hne).
  exists w1, w2, c1, c2.
  split; [exact H1|]. split; [exact Hh1|]. split; [exact H2|]. split; [exact Hh2|].
  split; [rewrite Hid1; vm_compute; reflexivity|].
  split; [rewrite Hid2; vm_compute; reflexivity|].
  split; [exact Hcp|].
  apply Hne. vm_compute. discriminate.
Defined.

(** C8 fails as the spec words it: a random source that repeats itself
    makes two successive calls assign the same identifier. *)
Lemma SetInvocationID_repeats_on_a_stuck_source :
  let o1 := SetInvocationID (Some 1%positive) stuck_world in
  let o2 := SetInvocationID (Some 1%positive) (final_world o1) in
  returned o1 = Some tt
  /\ returned o2 = Some tt
  /\ InvocationID <$> heap (final_world o1) !! 1%positive
     = Some "07070707-0707-4707-8707-070707070707"
  /\ InvocationID <$> heap (final_world o2) !! 1%positive
     = Some "07070707-0707-4707-8707-070707070707".
Proof. vm_compute. repeat split. Qed.

(** C9 on a process that has just started. *)
Lemma GetAnalyticsEventContext_singleton_witness :
  let w := start ∅ sample_rand 0 in
  singleton_inv w
  /\ exists l w1,
      GetAnalyticsEventContext w = Returns (Some l) w1
      /\ heap w1 = <[l := zero_context]> (heap w)
      /\ GetAnalyticsEventContext w1 = Returns (Some l) w1
      /\ (do p1 <- GetAnalyticsEventContext;
          do p2 <- GetAnalyticsEventContext;
          run store p1 (set_InvocationID "id");
          load p2) w1
         = Returns (set_InvocationID "id" zero_context)
                   (set_heap (<[l := set_InvocationID "id" zero_context]> (heap w1)) w1).
Proof.
  cbv zeta. split; [reflexivity|].
  destruct (GetAnalyticsEventContext_singleton (start ∅ sample_rand 0) eq_refl)
    as (l & w1 & Hrun & _ & _ & Hfirst & _ & Hsame & Hshared).
  destruct (Hfirst eq_refl) as [_ Hheap].
  exists l, w1. split; [exact Hrun|]. split; [exact Hheap|].
  split; [apply Hsame, later_refl|].
  apply Hshared; [apply later_refl|]. rewrite Hheap. apply lookup_insert_eq.
Defined.

(** C10 on the opted-out process. *)
Lemma SendEvent_checks_opt_out_after_delay_witness :
  let o := SendEvent sample_optedOut sample_Parse sample_check sample_network sample_next_request
                     (Some 1%positive) None "purchase" "42" optout_world in
  sample_optedOut (optout_value optout_world) = true
  /\ take 3 (new_events optout_world (final_world o))
     = [EvSleep (5 * time.Second); EvNewClient telemetry_client;
        EvGetenv "STRIPE_CLI_TELEMETRY_OPTOUT"]
  /\ now (final_world o) = now optout_world + 5 * time.Second
  /\ exists w', o = Returns (None, None) w'
                /\ new_events optout_world w'
                   = [EvSleep (5 * time.Second); EvNewClient telemetry_client;
                      EvGetenv "STRIPE_CLI_TELEMETRY_OPTOUT"].
Proof.
  cbv zeta.
  assert (H : sample_optedOut (optout_value optout_world) = true)
    by (vm_compute; reflexivity).
  split; [exact H|].
  destruct (SendEvent_checks_opt_out_after_delay sample_optedOut sample_Parse
              sample_check sample_network sample_next_request (Some 1%positive) None "purchase" "42"
              optout_world) as (Hpre & Hnow & Hopt).
  split; [exact Hpre|]. split; [exact Hnow|]. exact (Hopt H).
Defined.

(** ** The running example, computed *)

(** The body of the request [SendEvent("purchase", "42")] sends from the
    sample process. *)
Example sample_body :
  http.Body <$> round_trips
    (new_events sample_world
       (final_world
          (SendEvent sample_optedOut sample_Parse sample_check sample_network sample_next_request
                     (Some 1%positive) None "purchase" "42" sample_world)))
  = [ "cli_version=1.7.0&client_id=stripe-cli&command_path=stripe+customers+list&created=1700000005&event_id=0b30557a-9fc4-490e-b358-7da2c7ec1136&event_name=purchase&event_value=42&generated_resource=true&invocation_id=&livemode=false&merchant=acct_123&os=linux&request_id=req_42&user_agent=Stripe%2Fv1+stripe-cli%2F1.7.0" ].
Proof. vm_compute. reflexivity. Qed.

(** An endpoint that does not parse and a request that cannot be built
    come back as errors before anything is sent. *)
Example broken_endpoint :
  let o := SendEvent sample_optedOut broken_Parse sample_check sample_network sample_next_request
                     (Some 1%positive) None "purchase" "42" sample_world in
  returned o = Some (None, Some (errors_New "parse: invalid URL"))
  /\ round_trips (new_events sample_world (final_world o)) = [].
Proof. vm_compute. split; reflexivity. Qed.

Example broken_request :
  let o := SendEvent sample_optedOut sample_Parse broken_check sample_network sample_next_request
                     (Some 1%positive) None "purchase" "42" sample_world in
  returned o = Some (None, Some (errors_New "net/http: invalid method"))
  /\ round_trips (new_events sample_world (final_world o)) = [].
Proof. vm_compute. split; reflexivity. Qed.

(** A server that redirects without end: the client gives up after ten
    requests, the call returns the client's error with a nil response,
    and nothing is printed. *)
Example redirect_loop :
  let o := SendEvent sample_optedOut sample_Parse sample_check looping_network
                     sample_next_request (Some 1%positive) None "purchase" "42"
                     sample_world in
  returned o = Some (None, Some (url_Error "Post" "https://r.stripe.com/0"
                                   (errors_New "stopped after 10 redirects")))
  /\ map http.Method (round_trips (new_events sample_world (final_world o)))
     = ["POST"; "GET"; "GET"; "GET"; "GET"; "GET"; "GET"; "GET"; "GET"; "GET"]
  /\ printed (new_events sample_world (final_world o)) = [].
Proof. vm_compute. repeat split. Qed.

(** A [Location] that does not parse ends the call with an error after
    the one round trip. *)
Example broken_redirect :
  let net (r : http.Request) : http.Response + error :=
    inl {| http.StatusCode := 301;
           http.RespHdr := http.Header_Set ∅ "Location" "://nowhere";
           http.RespBody := "" |} in
  let o := SendEvent sample_optedOut sample_Parse sample_check net
                     sample_next_request (Some 1%positive) None "purchase" "42"
                     sample_world in
  returned o
  = Some (None,
          Some (url_Error "Post" "https://r.stripe.com/0"
                  (errors_New "failed to parse Location header: missing protocol scheme")))
  /\ length (round_trips (new_events sample_world (final_world o))) = 1%nat
  /\ printed (new_events sample_world (final_world o)) = [].
Proof. vm_compute. repeat split. Qed.

(** A nil context would make [WithContext] panic; the guard in
    [SendEvent] keeps it from being called. *)
Example nil_context_would_panic :
  returned (Request_WithContext
              (sent_request {| url_String := analytics_endpoint |} None ∅) None
              sample_world) = None.
Proof. reflexivity. Qed.

(** Binding the generated command raises the flag; binding the plain one
    afterwards lowers it again. *)
Example rebinding :
  (heap (final_world (SetCommandContext (Some 1%positive) sample_command sample_world))
     !! 1%positive)
  = Some (set_GeneratedResource true
            (set_CommandPath "stripe customers list" sample_context))
  /\ (heap (final_world
              ((run SetCommandContext (Some 1%positive) sample_command;
                SetCommandContext (Some 1%positive) plain_command) sample_world))
        !! 1%positive)
     = Some (set_GeneratedResource false (set_CommandPath "stripe login" sample_context)).
Proof. vm_compute. split; reflexivity. Qed.

(** ** The further properties on the sample surroundings *)

Lemma SendEvent_nil_nil_iff_opted_out_witness :
  valid_ptr (Some 1%positive) sample_world
  /\ rand_ready sample_world 0 16 = true
  /\ exists res w',
      SendEvent sample_optedOut sample_Parse sample_check sample_network sample_next_request
                (Some 1%positive) None "purchase" "42" sample_world
      = Returns res w'
      /\ (res = (None, None)
          <-> sample_optedOut (optout_value sample_world) = true)
      /\ (forall resp err, res <> (Some resp, Some err)).
Proof.
  split; [exact sample_world_valid|]. split; [reflexivity|].
  exact (SendEvent_nil_nil_iff_opted_out sample_optedOut sample_Parse sample_check
           sample_network sample_next_request (Some 1%positive) None "purchase" "42" sample_world
           sample_world_valid eq_refl).
Defined.

Lemma SendEvent_nil_receiver_witness :
  sample_optedOut (optout_value sample_world) = false
  /\ exists req res w',
      SendEvent sample_optedOut sample_Parse sample_check sample_network sample_next_request
                None None "purchase" "42" sample_world
      = Returns res w'
      /\ head (round_trips (new_events sample_world w')) = Some req
      /\ split_on "&" (http.Body req)
         = [ "client_id=stripe-cli"; "created=1700000005";
             "event_id=0b30557a-9fc4-490e-b358-7da2c7ec1136";
             "event_name=purchase"; "event_value=42" ].
Proof.
  assert (H : sample_optedOut (optout_value sample_world) = false)
    by (vm_compute; reflexivity).
  split; [exact H|].
  destruct (SendEvent_nil_receiver sample_optedOut sample_Parse sample_check
              sample_network sample_next_request None "purchase" "42" sample_world
              {| url_String := analytics_endpoint |} H eq_refl eq_refl eq_refl)
    as (req & res & w' & Hrun & Hrt & Hbody).
  exists req, res, w'. split; [exact Hrun|]. split; [exact Hrt|].
  rewrite Hbody. vm_compute. reflexivity.
Defined.

Lemma setters_commute_witness :
  heap sample_world !! 1%positive = Some sample_context
  /\ (run SetCommandContext (Some 1%positive) plain_command;
      SetInvocationID (Some 1%positive)) sample_world
     = (run SetInvocationID (Some 1%positive);
        SetCommandContext (Some 1%positive) plain_command) sample_world.
Proof.
  split; [reflexivity|].
  exact (proj1 (setters_commute 1%positive sample_context plain_command
                  sample_world eq_refl eq_refl)).
Defined.

Lemma SendEvent_fields_cannot_be_forged_witness :
  sample_optedOut (optout_value sample_world) = false
  /\ heap sample_world !! 1%positive = Some sample_context
  /\ exists req res w',
      SendEvent sample_optedOut sample_Parse sample_check sample_network sample_next_request
                (Some 1%positive) None "a&event_name=b" "x=y&client_id=z"
                sample_world
      = Returns res w'
      /\ head (round_trips (new_events sample_world w')) = Some req
      /\ map (split_on "=") (split_on "&" (http.Body req)) =
         [ ["cli_version"; "1.7.0"];
           ["client_id"; "stripe-cli"];
           ["command_path"; "stripe+customers+list"];
           ["created"; "1700000005"];
           ["event_id"; "0b30557a-9fc4-490e-b358-7da2c7ec1136"];
           ["event_name"; "a%26event_name%3Db"];
           ["event_value"; "x%3Dy%26client_id%3Dz"];
           ["generated_resource"; "true"];
           ["invocation_id"; ""];
           ["livemode"; "false"];
           ["merchant"; "acct_123"];
           ["os"; "linux"];
           ["request_id"; "req_42"];
           ["user_agent"; "Stripe%2Fv1+stripe-cli%2F1.7.0"] ].
Proof.
  assert (H : sample_optedOut (optout_value sample_world) = false)
    by (vm_compute; reflexivity).
  split; [exact H|]. split; [reflexivity|].
  destruct (SendEvent_fields_cannot_be_forged sample_optedOut sample_Parse
              sample_check sample_network sample_next_request 1%positive sample_context None
              "a&event_name=b" "x=y&client_id=z" sample_world
              {| url_String := analytics_endpoint |} H eq_refl eq_refl eq_refl eq_refl)
    as (req & res & w' & Hrun & Hrt & Hcut).
  exists req, res, w'. split; [exact Hrun|]. split; [exact Hrt|].
  rewrite Hcut. vm_compute. reflexivity.
Defined.

Lemma SendEvent_body_is_lossless_witness :
  sample_optedOut (optout_value sample_world) = false
  /\ heap sample_world !! 1%positive = Some sample_context
  /\ exists req1 req2 r1 r2 w1' w2',
      SendEvent sample_optedOut sample_Parse sample_check sample_network sample_next_request
                (Some 1%positive) None "a b" "1" sample_world = Returns r1 w1'
      /\ head (round_trips (new_events sample_world w1')) = Some req1
      /\ SendEvent sample_optedOut sample_Parse sample_check sample_network sample_next_request
                   (Some 1%positive) None "a+b" "1" sample_world = Returns r2 w2'
      /\ head (round_trips (new_events sample_world w2')) = Some req2
      /\ http.Body req1 <> http.Body req2.
Proof.
  assert (H : sample_optedOut (optout_value sample_world) = false)
    by (vm_compute; reflexivity).
  split; [exact H|]. split; [reflexivity|].
  destruct (SendEvent_body_is_lossless sample_optedOut sample_Parse sample_check
              sample_network sample_next_request 1%positive 1%positive sample_context sample_context
              None None "a b" "a+b" "1" "1" sample_world sample_world
              {| url_String := analytics_endpoint |} H H eq_refl eq_refl
              eq_refl eq_refl eq_refl eq_refl)
    as (req1 & req2 & r1 & r2 & w1' & w2' & Hrun1 & Hrt1 & Hrun2 & Hrt2 & Hinj).
  exists req1, req2, r1, r2, w1', w2'.
  repeat (split; [assumption|]).
  intros Heq. destruct (Hinj Heq) as (_ & Hn & _). discriminate Hn.
Defined.

Lemma one_invocation_witness :
  let w := start ∅ sample_rand (1700000000 * time.Second) in
  telemetrySync w = false
  /\ sample_optedOut (optout_value w) = false
  /\ exists l req res w',
      (do p <- GetAnalyticsEventContext;
       run SetCommandContext p sample_command;
       run SetInvocationID p;
       SendEvent sample_optedOut sample_Parse sample_check sample_network sample_next_request
                 p None "purchase" "42") w = Returns res w'
      /\ telemetryInstance w' = Some l
      /\ head (round_trips (new_events w w')) = Some req
      /\ split_on "&" (http.Body req) =
         [ "cli_version="; "client_id=stripe-cli";
           "command_path=stripe+customers+list"; "created=1700000005";
           "event_id=5b80a5ca-ef14-495e-83a8-cdf2173c6186";
           "event_name=purchase"; "event_value=42"; "generated_resource=true";
           "invocation_id=0b30557a-9fc4-490e-b358-7da2c7ec1136";
           "livemode=false"; "merchant="; "os="; "request_id="; "user_agent=" ].
Proof.
  cbv zeta.
  assert (H : sample_optedOut
                (optout_value (start ∅ sample_rand (1700000000 * time.Second)))
              = false) by (vm_compute; reflexivity).
  split; [reflexivity|]. split; [exact H|].
  destruct (one_invocation sample_optedOut sample_Parse sample_check sample_network sample_next_request
              sample_command None "purchase" "42"
              (start ∅ sample_rand (1700000000 * time.Second))
              {| url_String := analytics_endpoint |} eq_refl H eq_refl eq_refl eq_refl eq_refl)
    as (l & req & res & w' & Hrun & Hi & _ & Hrt & Hbody & _).
  exists l, req, res, w'. split; [exact Hrun|]. split; [exact Hi|].
  split; [exact Hrt|]. rewrite Hbody. vm_compute. reflexivity.
Defined.

Lemma SendEvent_twice_witness :
  sample_optedOut (optout_value sample_world) = false
  /\ heap sample_world !! 1%positive = Some sample_context
  /\ exists req1 req2 r1 r2 w1 w2,
      SendEvent sample_optedOut sample_Parse sample_check sample_network
                sample_next_request (Some 1%positive) None "start" "1" sample_world
      = Returns r1 w1
      /\ SendEvent sample_optedOut sample_Parse sample_check sample_network
                   sample_next_request (Some 1%positive) None "stop" "2" w1
         = Returns r2 w2
      /\ head (round_trips (new_events sample_world w1)) = Some req1
      /\ head (round_trips (new_events w1 w2)) = Some req2
      /\ sleeps (new_events sample_world w2) = [5 * time.Second; 5 * time.Second]
      /\ uuid_at sample_world 0 <> uuid_at sample_world 16.
Proof.
  assert (H : sample_optedOut (optout_value sample_world) = false)
    by (vm_compute; reflexivity).
  split; [exact H|]. split; [reflexivity|].
  destruct (SendEvent_twice sample_optedOut sample_Parse sample_check sample_network
              sample_next_request 1%positive sample_context None
              "start" "1" "stop" "2" sample_world
              {| url_String := analytics_endpoint |}
              H eq_refl eq_refl eq_refl eq_refl eq_refl)
    as (req1 & req2 & r1 & r2 & w1 & w2 & Hrun1 & Hrun2 & Hrt1 & Hrt2 & Hsl
        & _ & _ & _ & Hne).
  exists req1, req2, r1, r2, w1, w2.
  repeat (split; [assumption|]).
  apply Hne. vm_compute. discriminate.
Defined.

Lemma setters_touch_one_record_witness :
  heap sample_world !! 1%positive = Some sample_context
  /\ let w' := final_world (SetInvocationID (Some 1%positive) sample_world) in
     dom (heap w') = dom (heap sample_world)
     /\ environ w' = environ sample_world
     /\ now w' = now sample_world
     /\ trace w' = trace sample_world.
Proof.
  split; [reflexivity|]. cbv zeta.
  destruct (setters_touch_one_record 1%positive sample_context plain_command
              sample_world eq_refl
              (final_world (SetInvocationID (Some 1%positive) sample_world))
              (or_intror eq_refl))
    as (_ & Hdom & _ & _ & Henv & Hnow & Htr).
  auto.
Defined.

Lemma SetCommandContext_any_order_witness :
  let cmd := cobra.mkCommand "get" {[ "a" := "x"; "b" := "operation" ]} None in
  [("b", "operation"); ("a", "x")] ≡ₚ map_to_list (cobra.Annotations cmd)
  /\ heap sample_world !! 1%positive = Some sample_context
  /\ SetCommandContext_ranging [("b", "operation"); ("a", "x")]
       (Some 1%positive) cmd sample_world
     = SetCommandContext (Some 1%positive) cmd sample_world
  /\ SetCommandContext_ranging [("a", "x"); ("b", "operation")]
       (Some 1%positive) cmd sample_world
     = SetCommandContext (Some 1%positive) cmd sample_world.
Proof.
  cbv zeta.
  assert (Hm : map_to_list (cobra.Annotations
                 (cobra.mkCommand "get" {[ "a" := "x"; "b" := "operation" ]} None))
               ≡ₚ [("a", "x"); ("b", "operation")]).
  { cbn [cobra.Annotations].
    rewrite map_to_list_insert by (vm_compute; reflexivity).
    rewrite map_to_list_singleton. reflexivity. }
  assert (H1 : [("b", "operation"); ("a", "x")]
               ≡ₚ map_to_list (cobra.Annotations
                    (cobra.mkCommand "get" {[ "a" := "x"; "b" := "operation" ]} None)))
    by (rewrite Hm; apply Permutation_swap).
  split; [exact H1|]. split; [reflexivity|]. split.
  - exact (SetCommandContext_any_order _ 1%positive sample_context _ sample_world
             H1 eq_refl).
  - exact (SetCommandContext_any_order _ 1%positive sample_context _ sample_world
             (Permutation_sym Hm) eq_refl).
Defined.
